(** * CascadeRouter: routing engine, candidate selector, usage limiter, metrics

    Shallow embedding of
      - [src/core/limiter.ts]   (class [TokenLimiter]),
      - [src/core/router.ts]    (class [Router]), in its two revisions: the
        one without race mode and the later one that adds the
        [speculative] strategy and the incremental latency average,
      - the type declarations of [src/types.ts] these two use.

    Modelling conventions.
      - A JavaScript [number] is a rational [Q]: arithmetic is exact, there
        is no NaN and no rounding.  [Date.now()] is a parameter [now].
      - A JavaScript [Map] whose iteration order is observed (the provider
        registry) is an association list kept in insertion order; the
        per-provider metrics [Map], which is only looked up and updated by
        key, is a [gmap].
      - [Array.prototype.sort] is stable (ECMAScript 2019); it is modelled
        by a stable insertion sort driven by the comparator's sign.
      - An endpoint adapter is a function from the request to the way its
        promise settles, together with the milliseconds it took. *)

From Stdlib Require Import QArith Qround ZArith List Sorted Permutation Lia Lqa Bool.
From stdpp Require Import gmap strings.
Import ListNotations.

Local Open Scope Q_scope.

(** ** JavaScript numbers *)

Module Num.

Definition gt (a b : Q) : bool := negb (Qle_bool a b).
Definition ge (a b : Q) : bool := Qle_bool b a.
Definition lt (a b : Q) : bool := negb (Qle_bool b a).

(** [Math.ceil] *)
Definition ceil (a : Q) : Q := inject_Z (Qceiling a).

(** [array.length] and [string.length] (one code unit per character, as for
    ASCII text) *)
Definition len {A} (l : list A) : Q := inject_Z (Z.of_nat (List.length l)).
Definition strlen (s : string) : Q := inject_Z (Z.of_nat (String.length s)).

(** [xs.reduce((sum, x) => sum + f(x), 0)] *)
Definition sum {A} (f : A -> Q) (l : list A) : Q :=
  fold_left (fun acc x => acc + f x) l 0.

End Num.

(** ** [Array.prototype.sort(compare)]

    [compare a b < 0] places [a] before [b]; elements that compare equal
    keep their relative order. *)

Section JsSort.
Context {A : Type} (compare : A -> A -> Q).

Fixpoint sort_insert (x : A) (l : list A) : list A :=
  match l with
  | [] => [x]
  | y :: l' => if Num.gt (compare x y) 0 then y :: sort_insert x l' else x :: l
  end.

Definition js_sort (l : list A) : list A := fold_right sort_insert [] l.
End JsSort.

(** ** [Map] in insertion order *)

Module JsMap.
Section Defs.
Context {V : Type}.

Fixpoint get (m : list (string * V)) (k : string) : option V :=
  match m with
  | [] => None
  | (k', v) :: m' => if String.eqb k' k then Some v else get m' k
  end.

(** [m.set(k, v)]: an existing key keeps its position. *)
Fixpoint set (m : list (string * V)) (k : string) (v : V) : list (string * V) :=
  match m with
  | [] => [(k, v)]
  | (k', v') :: m' => if String.eqb k' k then (k', v) :: m' else (k', v') :: set m' k v
  end.

Definition keys (m : list (string * V)) : list string := map fst m.

(** [m.delete(k)] *)
Fixpoint remove (m : list (string * V)) (k : string) : list (string * V) :=
  match m with
  | [] => []
  | (k', v) :: m' => if String.eqb k' k then m' else (k', v) :: remove m' k
  end.
End Defs.
End JsMap.

(** ** Types ([src/types.ts]) *)

Record ProviderConfig := {
  config_id : string;
  enabled : bool;
  priority : Q;
  costPerMillionTokens : Q;
  latency : Q;
  availability : Q;
}.

Record Message := { role : string; msg_content : string }.

Record ChatRequest := {
  prompt : string;
  messages : option (list Message);
  maxTokens : option Q;
}.

Record Tokens := { input : Q; output : Q; total : Q }.

Record ChatResponse := {
  content : string;
  response_provider : string;
  tokens : Tokens;
  cost : Q;
}.

(** How the promise returned by an adapter call settles, and after how many
    milliseconds. *)
Inductive Settled :=
| Fulfilled (response : ChatResponse)
| Rejected (message : string).

Record AdapterRun := { settled : Settled; elapsed : Q }.

Record Provider := {
  provider_id : string;
  config : ProviderConfig;
  chat : ChatRequest -> AdapterRun;
  chatStream : ChatRequest -> AdapterRun;
}.

Inductive RoutingStrategy :=
| cost_strategy | speed | quality | balanced | priority_strategy | fallback
| speculative.

(** The later revision adds the ['speculative'] strategy above and the two
    declarations below; the implementation summary quotes them.  The
    candidate count is an integer. *)
Inductive CandidateStrategy := cand_speed | cand_quality | cand_balanced.

Record SpeculativeConfig := {
  candidateCount : Z;
  candidateStrategy : CandidateStrategy;
  enableCostTracking : bool;
  maxCostMultiplier : Q;
}.

Record BudgetLimits := {
  dailyTokens : Q;
  dailyCost : Q;
  monthlyTokens : Q;
  monthlyCost : Q;
}.

Record RateLimits := {
  requestsPerMinute : Q;
  tokensPerMinute : Q;
}.

Record RoutingConfig := {
  strategy : RoutingStrategy;
  fallbackEnabled : bool;
  config_budgetLimits : option BudgetLimits;
  config_rateLimits : option RateLimits;
  speculativeConfig : option SpeculativeConfig;
}.

Record RoutingAttempt := {
  attempt_provider : string;
  success : bool;
  duration : Q;
  error : option string;
}.

Record RoutingDecision := {
  selectedProvider : string;
  decision_strategy : RoutingStrategy;
  alternatives : list string;
  fallbackTriggered : bool;
}.

Record RoutingResult := {
  result_provider : string;
  response : ChatResponse;
  routingDecision : RoutingDecision;
  attempts : list RoutingAttempt;
  totalCost : Q;
  totalDuration : Q;
}.

Record ProviderMetrics := {
  providerId : string;
  requestCount : Q;
  successCount : Q;
  failureCount : Q;
  pm_totalTokens : Q;
  pm_totalCost : Q;
  avgLatency : Q;
  lastUsed : Q;
}.

Record BudgetUsage := {
  bu_dailyTokens : Q;
  bu_dailyCost : Q;
  bu_monthlyTokens : Q;
  bu_monthlyCost : Q;
  dailyPercentage : Q;
  monthlyPercentage : Q;
}.

Record SpeculativeExecutionMetrics := {
  totalSpeculativeRequests : Q;
  totalAdditionalCost : Q;
  avgTimeSaved : Q;
  avgCostIncrease : Q;
  fasterThanSequentialCount : Q;
  avgCandidatesRaced : Q;
}.

Record RouterMetrics := {
  totalRequests : Q;
  rm_totalCost : Q;
  rm_totalTokens : Q;
  providerMetrics : gmap string ProviderMetrics;
  budgetUsage : BudgetUsage;
  rateLimitHits : Q;
  fallbackCount : Q;
  speculativeExecutionMetrics : option SpeculativeExecutionMetrics;
}.

(** ** Token budget and rate limiter ([src/core/limiter.ts]) *)

Module Limiter.

Inductive BudgetType := daily | monthly.

(** The four message templates of [checkBudget]; each stands for the string
    built from the projected usage and the ceiling it carries. *)
Inductive BudgetReason :=
| DailyTokenLimitExceeded (after ceiling : Q)
| DailyCostLimitExceeded (after ceiling : Q)
| MonthlyTokenLimitExceeded (after ceiling : Q)
| MonthlyCostLimitExceeded (after ceiling : Q).

Record BudgetCheck := {
  allowed : bool;
  reason : option BudgetReason;
  budgetType : option BudgetType;
  usage : Q;
  limit : Q;
}.

Inductive RateReason :=
| RequestRateExceeded (recent : Q)
| TokenRateExceeded (recent : Q).

Record RateLimitCheck := {
  rl_allowed : bool;
  rl_reason : option RateReason;
  rl_provider : option string;
  retryAfter : option Q;
}.

Record UsageRecord := { u_tokens : Q; u_cost : Q; u_timestamp : Q }.

Record TokenUsage := { tu_timestamp : Q; tu_tokens : Q }.

Record TokenLimiter := {
  budgetLimits : option BudgetLimits;
  rateLimits : option RateLimits;
  dailyUsage : list UsageRecord;
  monthlyUsage : list UsageRecord;
  requestHistory : list Q;
  tokenUsageHistory : list TokenUsage;
}.

(** [new TokenLimiter(budgetLimits, rateLimits)] *)
Definition create (b : option BudgetLimits) (r : option RateLimits) : TokenLimiter :=
  {| budgetLimits := b; rateLimits := r;
     dailyUsage := []; monthlyUsage := [];
     requestHistory := []; tokenUsageHistory := [] |}.

(** Rough estimate: 1 token for 4 characters. *)
Definition estimateTextTokens (text : string) : Q :=
  Num.ceil (Num.strlen text / 4).

Definition estimateRequestTokens (request : ChatRequest) : Q :=
  let totalTokens := estimateTextTokens (prompt request) in
  let totalTokens :=
    match messages request with
    | Some ms => fold_left (fun acc m => acc + estimateTextTokens (msg_content m)) ms totalTokens
    | None => totalTokens
    end in
  match maxTokens request with
  | Some n => if Qeq_bool n 0 then totalTokens + 500 else totalTokens + n
  | None => totalTokens + 500
  end.

Definition estimateCost (tokens : Q) : Q :=
  let costPerMillion := 1 in
  (tokens / 1000000) * costPerMillion.

Definition calculateDailyUsage (l : TokenLimiter) (now : Q) : Q * Q :=
  let oneDayAgo := now - 86400000 in
  let recentDaily := List.filter (fun r => Num.gt (u_timestamp r) oneDayAgo) (dailyUsage l) in
  (Num.sum u_tokens recentDaily, Num.sum u_cost recentDaily).

Definition calculateMonthlyUsage (l : TokenLimiter) (now : Q) : Q * Q :=
  let oneMonthAgo := now - 2592000000 in
  let recentMonthly := List.filter (fun r => Num.gt (u_timestamp r) oneMonthAgo) (monthlyUsage l) in
  (Num.sum u_tokens recentMonthly, Num.sum u_cost recentMonthly).

Definition denied (why : BudgetReason) (ty : BudgetType) (u lim : Q) : BudgetCheck :=
  {| allowed := false; reason := Some why; budgetType := Some ty;
     usage := u; limit := lim |}.

Definition checkBudgetWith (b : BudgetLimits) (l : TokenLimiter) (now : Q)
    (request : ChatRequest) : BudgetCheck :=
  let estimatedTokens := estimateRequestTokens request in
  let estimatedCost := estimateCost estimatedTokens in
  let '(dTokens, dCost) := calculateDailyUsage l now in
  let dailyTokensAfter := dTokens + estimatedTokens in
  let dailyCostAfter := dCost + estimatedCost in
  if Num.gt (dailyTokens b) 0 && Num.gt dailyTokensAfter (dailyTokens b) then
    denied (DailyTokenLimitExceeded dailyTokensAfter (dailyTokens b)) daily
           dailyTokensAfter (dailyTokens b)
  else if Num.gt (dailyCost b) 0 && Num.gt dailyCostAfter (dailyCost b) then
    denied (DailyCostLimitExceeded dailyCostAfter (dailyCost b)) daily
           dailyCostAfter (dailyCost b)
  else
    let '(mTokens, mCost) := calculateMonthlyUsage l now in
    let monthlyTokensAfter := mTokens + estimatedTokens in
    let monthlyCostAfter := mCost + estimatedCost in
    if Num.gt (monthlyTokens b) 0 && Num.gt monthlyTokensAfter (monthlyTokens b) then
      denied (MonthlyTokenLimitExceeded monthlyTokensAfter (monthlyTokens b)) monthly
             monthlyTokensAfter (monthlyTokens b)
    else if Num.gt (monthlyCost b) 0 && Num.gt monthlyCostAfter (monthlyCost b) then
      denied (MonthlyCostLimitExceeded monthlyCostAfter (monthlyCost b)) monthly
             monthlyCostAfter (monthlyCost b)
    else
      {| allowed := true; reason := None; budgetType := None;
         usage := dailyCostAfter; limit := dailyCost b |}.

Definition checkBudget (l : TokenLimiter) (now : Q) (request : ChatRequest) : BudgetCheck :=
  match budgetLimits l with
  | None => {| allowed := true; reason := None; budgetType := None;
               usage := 0; limit := 0 |}
  | Some b => checkBudgetWith b l now request
  end.

Definition rate_ok : RateLimitCheck :=
  {| rl_allowed := true; rl_reason := None; rl_provider := None; retryAfter := None |}.

Definition checkTokenRate (rl : RateLimits) (l : TokenLimiter) (now : Q) : RateLimitCheck :=
  if Num.gt (tokensPerMinute rl) 0 then
    let oneMinuteAgo := now - 60000 in
    let recentTokens :=
      Num.sum tu_tokens
        (List.filter (fun r => Num.gt (tu_timestamp r) oneMinuteAgo) (tokenUsageHistory l)) in
    if Num.ge recentTokens (tokensPerMinute rl) then
      {| rl_allowed := false; rl_reason := Some (TokenRateExceeded recentTokens);
         rl_provider := None; retryAfter := None |}
    else rate_ok
  else rate_ok.

Definition checkRateLimits (l : TokenLimiter) (now : Q) : RateLimitCheck :=
  match rateLimits l with
  | None => rate_ok
  | Some rl =>
      let oneMinuteAgo := now - 60000 in
      let recentRequests := List.filter (fun t => Num.gt t oneMinuteAgo) (requestHistory l) in
      if Num.gt (requestsPerMinute rl) 0
         && Num.ge (Num.len recentRequests) (requestsPerMinute rl) then
        (* [recentRequests[0]] is [undefined] on an empty array, which the
           guard excludes: the ceiling is positive, so the array is not empty *)
        let oldestRequest := hd 0 recentRequests in
        {| rl_allowed := false;
           rl_reason := Some (RequestRateExceeded (Num.len recentRequests));
           rl_provider := None;
           retryAfter := Some (Num.ceil ((oldestRequest + 60000 - now) / 1000)) |}
      else checkTokenRate rl l now
  end.

Definition cleanupOldRecords (l : TokenLimiter) (now : Q) : TokenLimiter :=
  let oneDayAgo := now - 86400000 in
  let oneMonthAgo := now - 2592000000 in
  let oneMinuteAgo := now - 60000 in
  {| budgetLimits := budgetLimits l; rateLimits := rateLimits l;
     dailyUsage := List.filter (fun r => Num.gt (u_timestamp r) oneDayAgo) (dailyUsage l);
     monthlyUsage := List.filter (fun r => Num.gt (u_timestamp r) oneMonthAgo) (monthlyUsage l);
     requestHistory := List.filter (fun t => Num.gt t oneMinuteAgo) (requestHistory l);
     tokenUsageHistory :=
       List.filter (fun r => Num.gt (tu_timestamp r) oneMinuteAgo) (tokenUsageHistory l) |}.

Definition recordUsage (l : TokenLimiter) (now : Q) (tk : Tokens) : TokenLimiter :=
  let c := estimateCost (total tk) in
  let rec := {| u_tokens := total tk; u_cost := c; u_timestamp := now |} in
  cleanupOldRecords
    {| budgetLimits := budgetLimits l; rateLimits := rateLimits l;
       dailyUsage := dailyUsage l ++ [rec];
       monthlyUsage := monthlyUsage l ++ [rec];
       requestHistory := requestHistory l ++ [now];
       tokenUsageHistory :=
         tokenUsageHistory l ++ [{| tu_timestamp := now; tu_tokens := total tk |}] |}
    now.

(** The budget dimension a denial names, and the ceiling configured for it. *)
Inductive Dimension := DailyTokens | DailyCost | MonthlyTokens | MonthlyCost.

Definition dimension (why : BudgetReason) : Dimension :=
  match why with
  | DailyTokenLimitExceeded _ _ => DailyTokens
  | DailyCostLimitExceeded _ _ => DailyCost
  | MonthlyTokenLimitExceeded _ _ => MonthlyTokens
  | MonthlyCostLimitExceeded _ _ => MonthlyCost
  end.

Definition ceiling_of (b : BudgetLimits) (d : Dimension) : Q :=
  match d with
  | DailyTokens => dailyTokens b
  | DailyCost => dailyCost b
  | MonthlyTokens => monthlyTokens b
  | MonthlyCost => monthlyCost b
  end.

Definition dimension_denied (l : TokenLimiter) (now : Q) (request : ChatRequest)
    : option Dimension :=
  option_map dimension (reason (checkBudget l now request)).

(** *** Usage snapshot and resets *)

(** A quotient whose divisor may be zero; JavaScript yields [NaN] or an
    infinity there, rendered [None]. *)
Definition quotient (a b : Q) : option Q :=
  if Qeq_bool b 0 then None else Some (a / b).

Record UsageSnapshot := {
  snap_dailyTokens : Q;
  snap_dailyCost : Q;
  snap_monthlyTokens : Q;
  snap_monthlyCost : Q;
  snap_dailyPercentage : option Q;
  snap_monthlyPercentage : option Q;
}.

Definition getBudgetUsage (l : TokenLimiter) (now : Q) : UsageSnapshot :=
  let d := calculateDailyUsage l now in
  let m := calculateMonthlyUsage l now in
  {| snap_dailyTokens := fst d;
     snap_dailyCost := snd d;
     snap_monthlyTokens := fst m;
     snap_monthlyCost := snd m;
     snap_dailyPercentage :=
       match budgetLimits l with
       | Some b => option_map (fun q => q * 100) (quotient (snd d) (dailyCost b))
       | None => Some 0
       end;
     snap_monthlyPercentage :=
       match budgetLimits l with
       | Some b => option_map (fun q => q * 100) (quotient (snd m) (monthlyCost b))
       | None => Some 0
       end |}.

Definition resetDailyUsage (l : TokenLimiter) : TokenLimiter :=
  {| budgetLimits := budgetLimits l; rateLimits := rateLimits l;
     dailyUsage := []; monthlyUsage := monthlyUsage l;
     requestHistory := requestHistory l;
     tokenUsageHistory := tokenUsageHistory l |}.

Definition resetMonthlyUsage (l : TokenLimiter) : TokenLimiter :=
  {| budgetLimits := budgetLimits l; rateLimits := rateLimits l;
     dailyUsage := dailyUsage l; monthlyUsage := [];
     requestHistory := requestHistory l;
     tokenUsageHistory := tokenUsageHistory l |}.

Definition resetAllUsage (l : TokenLimiter) : TokenLimiter :=
  {| budgetLimits := budgetLimits l; rateLimits := rateLimits l;
     dailyUsage := []; monthlyUsage := [];
     requestHistory := []; tokenUsageHistory := [] |}.

(** *** Quantities the checks compare *)

(** Requests and tokens inside the one-minute window at [now]. *)
Definition requestsInWindow (l : TokenLimiter) (now : Q) : Q :=
  Num.len (List.filter (fun t => Num.gt t (now - 60000)) (requestHistory l)).

Definition tokensInWindow (l : TokenLimiter) (now : Q) : Q :=
  Num.sum tu_tokens
    (List.filter (fun r => Num.gt (tu_timestamp r) (now - 60000)) (tokenUsageHistory l)).


(** No ledger entry carries a timestamp later than [now]. *)
Definition recorded_by (l : TokenLimiter) (now : Q) : Prop :=
  Forall (fun r => u_timestamp r <= now) (dailyUsage l) /\
  Forall (fun r => u_timestamp r <= now) (monthlyUsage l) /\
  Forall (fun t => t <= now) (requestHistory l) /\
  Forall (fun r => tu_timestamp r <= now) (tokenUsageHistory l).

End Limiter.

(** ** Routing engine ([src/core/router.ts]) *)

Module Router.

(** What a call can throw: the plain [Error] of an uninitialized router, the
    typed errors of [src/types.ts], and the adapter's own error when it is
    re-thrown. *)
Inductive RouterError :=
| NotInitialized
| BudgetExceededError (why : option Limiter.BudgetReason) (ty : Limiter.BudgetType)
                      (currentUsage lim : Q)
| RateLimitError (why : option Limiter.RateReason) (provider : string)
                 (retry : option Q)
| NoProviders
| AllProvidersFailed (tried : list RoutingAttempt)
| AdapterError (message : string).

Record Router := {
  providers : list (string * Provider);
  routing : RoutingConfig;
  limiter : Limiter.TokenLimiter;
  metrics : RouterMetrics;
  initialized : bool;
}.

Definition createEmptyProviderMetrics (id : string) : ProviderMetrics :=
  {| providerId := id; requestCount := 0; successCount := 0; failureCount := 0;
     pm_totalTokens := 0; pm_totalCost := 0; avgLatency := 0; lastUsed := 0 |}.

Definition createEmptyMetrics : RouterMetrics :=
  {| totalRequests := 0; rm_totalCost := 0; rm_totalTokens := 0;
     providerMetrics := ∅;
     budgetUsage := {| bu_dailyTokens := 0; bu_dailyCost := 0;
                       bu_monthlyTokens := 0; bu_monthlyCost := 0;
                       dailyPercentage := 0; monthlyPercentage := 0 |};
     rateLimitHits := 0; fallbackCount := 0;
     speculativeExecutionMetrics := None |}.

Definition with_providerMetrics (m : RouterMetrics)
    (pm : gmap string ProviderMetrics) : RouterMetrics :=
  {| totalRequests := totalRequests m; rm_totalCost := rm_totalCost m;
     rm_totalTokens := rm_totalTokens m; providerMetrics := pm;
     budgetUsage := budgetUsage m; rateLimitHits := rateLimitHits m;
     fallbackCount := fallbackCount m;
     speculativeExecutionMetrics := speculativeExecutionMetrics m |}.

Definition with_metrics (r : Router) (m : RouterMetrics) : Router :=
  {| providers := providers r; routing := routing r; limiter := limiter r;
     metrics := m; initialized := initialized r |}.

Definition with_limiter (r : Router) (l : Limiter.TokenLimiter) : Router :=
  {| providers := providers r; routing := routing r; limiter := l;
     metrics := metrics r; initialized := initialized r |}.

(** [new Router(config)] *)
Definition create (cfg : RoutingConfig) : Router :=
  {| providers := []; routing := cfg;
     limiter := Limiter.create (config_budgetLimits cfg) (config_rateLimits cfg);
     metrics := createEmptyMetrics; initialized := false |}.

Definition registerProvider (r : Router) (p : Provider) : Router :=
  {| providers := JsMap.set (providers r) (provider_id p) p;
     routing := routing r; limiter := limiter r;
     metrics := with_providerMetrics (metrics r)
                  (<[provider_id p := createEmptyProviderMetrics (provider_id p)]>
                     (providerMetrics (metrics r)));
     initialized := initialized r |}.

(** The availability probes of [initialize] only log a warning. *)
Definition initialize (r : Router) : Router :=
  {| providers := providers r; routing := routing r; limiter := limiter r;
     metrics := metrics r; initialized := true |}.

(** [getMetrics] copies the record and the map. *)
Definition getMetrics (r : Router) : RouterMetrics :=
  with_providerMetrics (metrics r) (providerMetrics (metrics r)).

Definition resetMetrics (r : Router) : Router :=
  with_metrics r
    (fold_left
       (fun m id =>
          with_providerMetrics m
            (<[id := createEmptyProviderMetrics id]> (providerMetrics m)))
       (JsMap.keys (providers r)) createEmptyMetrics).

(** *** Candidate selection *)

(** [this.providers.get(id)!.config.field]; the sorters are only handed keys
    of the registry (see [availableProviders_registered]), so the default is
    never read. *)
Definition field (ps : list (string * Provider)) (f : ProviderConfig -> Q)
    (id : string) : Q :=
  match JsMap.get ps id with
  | Some p => f (config p)
  | None => 0
  end.

Definition sortByCost (ps : list (string * Provider)) (ids : list string) :=
  js_sort (fun a b => field ps costPerMillionTokens a - field ps costPerMillionTokens b) ids.

Definition sortBySpeed (ps : list (string * Provider)) (ids : list string) :=
  js_sort (fun a b => field ps latency a - field ps latency b) ids.

Definition sortByQuality (ps : list (string * Provider)) (ids : list string) :=
  js_sort (fun a b => field ps priority a - field ps priority b) ids.

Definition sortByPriority (ps : list (string * Provider)) (ids : list string) :=
  js_sort (fun a b => field ps priority a - field ps priority b) ids.

Definition balancedScore (c : ProviderConfig) : Q :=
  let costScore := 1 - costPerMillionTokens c / 100 in
  let speedScore := 1 - latency c / 10000 in
  let qualityScore := 1 - priority c / 100 in
  let availabilityScore := availability c in
  costScore * (4#10) + speedScore * (3#10) + qualityScore * (2#10)
  + availabilityScore * (1#10).

Definition sortByBalanced (ps : list (string * Provider)) (ids : list string) :=
  let scores := map (fun id => (id, field ps balancedScore id)) ids in
  map fst (js_sort (fun a b => snd b - snd a) scores).

Definition availableProviders (ps : list (string * Provider)) : list string :=
  map fst (List.filter (fun e => enabled (config (snd e))) ps).

Definition selectProviders (r : Router) : RouterError + list string :=
  let available := availableProviders (providers r) in
  match available with
  | [] => inl NoProviders
  | _ =>
      inr match strategy (routing r) with
          | cost_strategy => sortByCost (providers r) available
          | speed => sortBySpeed (providers r) available
          | quality => sortByQuality (providers r) available
          | balanced => sortByBalanced (providers r) available
          | priority_strategy => sortByPriority (providers r) available
          | fallback => sortByPriority (providers r) available
          | speculative => available
          end
  end.





(** *** Metrics aggregation *)

(** The two revisions of [updateMetrics] differ in how they write the new
    average: the earlier one rebuilds the total, the later one adds the
    increment. *)
Definition resummedAverage (avg sample count : Q) : Q :=
  let totalLatency := avg * (count - 1) + sample in
  totalLatency / count.

Definition incrementalAverage (avg sample count : Q) : Q :=
  avg + (sample - avg) / count.

Inductive Outcome :=
| Returned (res : RoutingResult)
| Thrown (e : RouterError)
| Raced (available : list string).
(** [Raced l]: [route] returns whatever
    [routeWithSpeculativeExecution(request, l)] settles to; that concurrent
    execution is outside this embedding. *)

(** How a call leaves the world: its outcome, the router state, the clock,
    the adapters it invoked (in order) and the contents of its local
    [attempts] array. *)
Record Exit := {
  outcome : Outcome;
  final : Router;
  clock : Q;
  invoked : list string;
  recorded : list RoutingAttempt;
}.

Section Engine.
(** The average-latency formula of the revision at hand. *)
Variable latencyAverage : Q -> Q -> Q -> Q.

Definition updateMetrics (r : Router) (id : string) (resp : ChatResponse)
    (dur now : Q) : Router :=
  match providerMetrics (metrics r) !! id with
  | None => r
  | Some pm =>
      let count := requestCount pm + 1 in
      let pm' :=
        {| providerId := providerId pm;
           requestCount := count;
           successCount := successCount pm + 1;
           failureCount := failureCount pm;
           pm_totalTokens := pm_totalTokens pm + total (tokens resp);
           pm_totalCost := pm_totalCost pm + cost resp;
           avgLatency := latencyAverage (avgLatency pm) dur count;
           lastUsed := now |} in
      let m := metrics r in
      with_metrics r
        {| totalRequests := totalRequests m + 1;
           rm_totalCost := rm_totalCost m + cost resp;
           rm_totalTokens := rm_totalTokens m + total (tokens resp);
           providerMetrics := <[id := pm']> (providerMetrics m);
           budgetUsage := budgetUsage m;
           rateLimitHits := rateLimitHits m;
           fallbackCount := fallbackCount m;
           speculativeExecutionMetrics := speculativeExecutionMetrics m |}
  end.

Definition updateFailureMetrics (r : Router) (id : string) : Router :=
  match providerMetrics (metrics r) !! id with
  | None => r
  | Some pm =>
      let pm' :=
        {| providerId := providerId pm;
           requestCount := requestCount pm + 1;
           successCount := successCount pm;
           failureCount := failureCount pm + 1;
           pm_totalTokens := pm_totalTokens pm;
           pm_totalCost := pm_totalCost pm;
           avgLatency := avgLatency pm;
           lastUsed := lastUsed pm |} in
      with_metrics r
        (with_providerMetrics (metrics r)
           (<[id := pm']> (providerMetrics (metrics r))))
  end.

(** The [reasoning] text of the decision is not modelled. *)
Definition createRoutingDecision (r : Router) (selected : string)
    (allProviders : list string) (fallbackTriggered : bool) : RoutingDecision :=
  {| selectedProvider := selected;
     decision_strategy := strategy (routing r);
     alternatives := List.filter (fun p => negb (String.eqb p selected)) allProviders;
     fallbackTriggered := fallbackTriggered |}.

Definition succeeded (id : string) (dur : Q) : RoutingAttempt :=
  {| attempt_provider := id; success := true; duration := dur; error := None |}.

Definition failed (id : string) (dur : Q) (msg : string) : RoutingAttempt :=
  {| attempt_provider := id; success := false; duration := dur; error := Some msg |}.

(** The [for (const providerId of selectedProviders)] loop of [route] and
    the code after it.  [ProgressMonitor.start] is called without a
    callback, so [track] and [end] pass the adapter's settlement through
    and notify nobody. *)
Fixpoint tryProviders (request : ChatRequest) (startTime : Q)
    (selectedProviders todo : list string) (r : Router) (now : Q)
    (attempts : list RoutingAttempt) (calls : list string) : Exit :=
  match todo with
  | [] =>
      {| outcome := Thrown (AllProvidersFailed attempts); final := r;
         clock := now; invoked := calls; recorded := attempts |}
  | providerId :: rest =>
      match JsMap.get (providers r) providerId with
      | None =>
          tryProviders request startTime selectedProviders rest r now attempts calls
      | Some provider =>
          let attemptStart := now in
          let run := chat provider request in
          let now := attemptStart + elapsed run in
          let calls := calls ++ [providerId] in
          match settled run with
          | Fulfilled resp =>
              let dur := now - attemptStart in
              let attempts := attempts ++ [succeeded providerId dur] in
              let r := updateMetrics r providerId resp dur now in
              let r := with_limiter r
                         (Limiter.recordUsage (limiter r) now (tokens resp)) in
              let fallbackTriggered := Num.gt (Num.len attempts) 0 in
              let decision :=
                createRoutingDecision r providerId selectedProviders
                  fallbackTriggered in
              {| outcome :=
                   Returned
                     {| result_provider := selectedProvider decision;
                        response := resp;
                        routingDecision := decision;
                        attempts := attempts;
                        totalCost := cost resp;
                        totalDuration := now - startTime |};
                 final := r; clock := now; invoked := calls;
                 recorded := attempts |}
          | Rejected msg =>
              let dur := now - attemptStart in
              let attempts := attempts ++ [failed providerId dur msg] in
              let r := updateFailureMetrics r providerId in
              if negb (fallbackEnabled (routing r)) then
                {| outcome := Thrown (AdapterError msg); final := r;
                   clock := now; invoked := calls; recorded := attempts |}
              else
                tryProviders request startTime selectedProviders rest r now
                  attempts calls
          end
      end
  end.

Definition throw (e : RouterError) (r : Router) (now : Q) : Exit :=
  {| outcome := Thrown e; final := r; clock := now; invoked := [];
     recorded := [] |}.

Definition route (r : Router) (now : Q) (request : ChatRequest) : Exit :=
  if negb (initialized r) then throw NotInitialized r now
  else
    let startTime := now in
    let budgetCheck := Limiter.checkBudget (limiter r) now request in
    if negb (Limiter.allowed budgetCheck) then
      throw (BudgetExceededError (Limiter.reason budgetCheck)
               (default Limiter.daily (Limiter.budgetType budgetCheck))
               (Limiter.usage budgetCheck) (Limiter.limit budgetCheck)) r now
    else
      let rateLimitCheck := Limiter.checkRateLimits (limiter r) now in
      if negb (Limiter.rl_allowed rateLimitCheck) then
        throw (RateLimitError (Limiter.rl_reason rateLimitCheck)
                 (default "unknown"%string (Limiter.rl_provider rateLimitCheck))
                 (Limiter.retryAfter rateLimitCheck)) r now
      else
        match selectProviders r with
        | inl e => throw e r now
        | inr selectedProviders =>
            match strategy (routing r) with
            | speculative =>
                {| outcome := Raced selectedProviders; final := r;
                   clock := now; invoked := []; recorded := [] |}
            | _ =>
                tryProviders request startTime selectedProviders
                  selectedProviders r now [] []
            end
        end.

(** The loop of [routeStream]. *)
Fixpoint tryStreams (request : ChatRequest) (startTime : Q)
    (selectedProviders todo : list string) (r : Router) (now : Q)
    (attempts : list RoutingAttempt) (calls : list string) : Exit :=
  match todo with
  | [] =>
      {| outcome := Thrown (AllProvidersFailed attempts); final := r;
         clock := now; invoked := calls; recorded := attempts |}
  | providerId :: rest =>
      match JsMap.get (providers r) providerId with
      | None =>
          tryStreams request startTime selectedProviders rest r now attempts calls
      | Some provider =>
          let attemptStart := now in
          let run := chatStream provider request in
          let now := attemptStart + elapsed run in
          let calls := calls ++ [providerId] in
          match settled run with
          | Fulfilled resp =>
              let dur := now - attemptStart in
              let attempts := attempts ++ [succeeded providerId dur] in
              let r := updateMetrics r providerId resp dur now in
              let r := with_limiter r
                         (Limiter.recordUsage (limiter r) now (tokens resp)) in
              {| outcome :=
                   Returned
                     {| result_provider := providerId;
                        response := resp;
                        routingDecision :=
                          createRoutingDecision r providerId selectedProviders false;
                        attempts := attempts;
                        totalCost := cost resp;
                        totalDuration := now - startTime |};
                 final := r; clock := now; invoked := calls;
                 recorded := attempts |}
          | Rejected msg =>
              let dur := now - attemptStart in
              let attempts := attempts ++ [failed providerId dur msg] in
              if negb (fallbackEnabled (routing r)) then
                {| outcome := Thrown (AdapterError msg); final := r;
                   clock := now; invoked := calls; recorded := attempts |}
              else
                tryStreams request startTime selectedProviders rest r now
                  attempts calls
          end
      end
  end.

Definition routeStream (r : Router) (now : Q) (request : ChatRequest) : Exit :=
  if negb (initialized r) then throw NotInitialized r now
  else
    let startTime := now in
    match selectProviders r with
    | inl e => throw e r now
    | inr selectedProviders =>
        tryStreams request startTime selectedProviders selectedProviders r now [] []
    end.

End Engine.

(** Whether a call ended in one of the two gate errors. *)
Definition gate_error (o : Outcome) : bool :=
  match o with
  | Thrown (BudgetExceededError _ _ _ _) | Thrown (RateLimitError _ _ _) => true
  | _ => false
  end.

(** *** Replaying attempts against one endpoint *)

Inductive AttemptEvent :=
| Success (resp : ChatResponse) (dur now : Q)
| Failure.

Definition record (latencyAverage : Q -> Q -> Q -> Q) (id : string)
    (r : Router) (e : AttemptEvent) : Router :=
  match e with
  | Success resp dur now => updateMetrics latencyAverage r id resp dur now
  | Failure => updateFailureMetrics r id
  end.

Definition replay (latencyAverage : Q -> Q -> Q -> Q) (id : string)
    (r : Router) (events : list AttemptEvent) : Router :=
  fold_left (record latencyAverage id) events r.

Definition successDurations (events : list AttemptEvent) : list Q :=
  flat_map (fun e => match e with Success _ dur _ => [dur] | Failure => [] end) events.

(** The running average of a sequence of samples, [avg += (x - avg) / count]
    with [count] the number of samples seen so far. *)
Fixpoint runningAverage (avg count : Q) (samples : list Q) : Q :=
  match samples with
  | [] => avg
  | x :: rest =>
      let count := count + 1 in
      runningAverage (avg + (x - avg) / count) count rest
  end.





(** *** Race metrics (later revision) *)

Definition emptySpeculativeMetrics : SpeculativeExecutionMetrics :=
  {| totalSpeculativeRequests := 0; totalAdditionalCost := 0; avgTimeSaved := 0;
     avgCostIncrease := 0; fasterThanSequentialCount := 0;
     avgCandidatesRaced := 0 |}.

Definition updateSpeculativeMetrics (m : RouterMetrics)
    (candidatesRaced dur c : Q) : RouterMetrics :=
  let sm := match speculativeExecutionMetrics m with
            | Some sm => sm
            | None => emptySpeculativeMetrics
            end in
  let count := totalSpeculativeRequests sm + 1 in
  let estimatedSequentialTime := dur * (15#10) in
  let timeSaved := estimatedSequentialTime - dur in
  let additionalCost := c * (candidatesRaced - 1) in
  {| totalRequests := totalRequests m; rm_totalCost := rm_totalCost m;
     rm_totalTokens := rm_totalTokens m; providerMetrics := providerMetrics m;
     budgetUsage := budgetUsage m; rateLimitHits := rateLimitHits m;
     fallbackCount := fallbackCount m;
     speculativeExecutionMetrics :=
       Some {| totalSpeculativeRequests := count;
               totalAdditionalCost := totalAdditionalCost sm + additionalCost;
               avgTimeSaved :=
                 avgTimeSaved sm + (timeSaved - avgTimeSaved sm) / count;
               avgCostIncrease :=
                 avgCostIncrease sm + (additionalCost - avgCostIncrease sm) / count;
               fasterThanSequentialCount := fasterThanSequentialCount sm + 1;
               avgCandidatesRaced :=
                 avgCandidatesRaced sm
                 + (candidatesRaced - avgCandidatesRaced sm) / count |} |}.

(** One finished race: candidates raced, the winner's duration and cost. *)
Record Race := { raced : Q; race_duration : Q; race_cost : Q }.

Definition recordRaces (m : RouterMetrics) (races : list Race) : RouterMetrics :=
  fold_left
    (fun m x => updateSpeculativeMetrics m (raced x) (race_duration x) (race_cost x))
    races m.

(** The race statistics, all zero until a race has been recorded. *)
Definition stats (m : RouterMetrics) : SpeculativeExecutionMetrics :=
  match speculativeExecutionMetrics m with
  | Some sm => sm
  | None => emptySpeculativeMetrics
  end.

(** *** Invariants of a router *)

(** Identifiers are unique in the registry. *)
Definition registry_ok (r : Router) : Prop := NoDup (JsMap.keys (providers r)).

(** Every registered endpoint has a metrics entry. *)
Definition metrics_cover (r : Router) : Prop :=
  forall id p, JsMap.get (providers r) id = Some p ->
               exists pm, providerMetrics (metrics r) !! id = Some pm.

(** Every entry's request count is its successes plus its failures. *)
Definition counts_ok (r : Router) : Prop :=
  forall id pm, providerMetrics (metrics r) !! id = Some pm ->
                requestCount pm == successCount pm + failureCount pm.

(** The limiter holds the ceilings of the routing configuration. *)
Definition limits_ok (r : Router) : Prop :=
  Limiter.budgetLimits (limiter r) = config_budgetLimits (routing r) /\
  Limiter.rateLimits (limiter r) = config_rateLimits (routing r).

Definition sound (r : Router) : Prop :=
  registry_ok r /\ metrics_cover r /\ counts_ok r /\ limits_ok r.

(** Router states reachable through the public operations. *)
Inductive Reachable (latencyAverage : Q -> Q -> Q -> Q) : Router -> Prop :=
| reach_create cfg : Reachable latencyAverage (create cfg)
| reach_register r p :
    Reachable latencyAverage r -> Reachable latencyAverage (registerProvider r p)
| reach_initialize r :
    Reachable latencyAverage r -> Reachable latencyAverage (initialize r)
| reach_reset r :
    Reachable latencyAverage r -> Reachable latencyAverage (resetMetrics r)
| reach_route r now request :
    Reachable latencyAverage r ->
    Reachable latencyAverage (final (route latencyAverage r now request))
| reach_routeStream r now request :
    Reachable latencyAverage r ->
    Reachable latencyAverage (final (routeStream latencyAverage r now request)).

Definition is_failed (a : RoutingAttempt) : Prop := success a = false.

(** The limiter and the global totals of [r'] are those of [r]. *)
Definition unbilled (r r' : Router) : Prop :=
  limiter r' = limiter r /\
  totalRequests (metrics r') = totalRequests (metrics r) /\
  rm_totalCost (metrics r') = rm_totalCost (metrics r) /\
  rm_totalTokens (metrics r') = rm_totalTokens (metrics r).

(** The errors [route] can raise before it tries an endpoint. *)
Definition early_error (o : Outcome) : bool :=
  match o with
  | Thrown NotInitialized | Thrown NoProviders
  | Thrown (BudgetExceededError _ _ _ _) | Thrown (RateLimitError _ _ _) => true
  | _ => false
  end.


End Router.

(** ** Progress monitor ([src/core/monitor.ts])

    A callback is an opaque function; it is named by a tag, and a call of it
    is recorded as the pair of the tag and the update it receives.  The
    checkpoint map is only iterated, so it is kept as the list of its
    values.  [track], which polls on a timer, is not modelled. *)

Module Monitor.

Inductive Status := in_progress | complete | failed_status.

Record ProgressUpdate := {
  pu_provider : string;
  tokensUsed : Q;
  costIncurred : Q;
  pu_duration : Q;
  percentage : Q;
  status : Status;
  pu_error : option string;
}.

Record CheckpointConfig := { tokenInterval : Q; timeInterval : Q }.

Record ActiveTracking := {
  at_provider : string;
  startTime : Q;
  startTokens : Q;
  lastCheckpointTime : Q;
  lastCheckpointTokens : Q;
  callback : option string;
}.

Record ProgressMonitor := {
  checkpoints : list CheckpointConfig;
  activeTracking : list (string * ActiveTracking);
  totalTokensUsed : Q;
  totalCostIncurred : Q;
}.

Definition Calls := list (string * ProgressUpdate).

(** [Math.round] and [Math.min] *)
Definition round (x : Q) : Q := inject_Z (Qfloor (x + (1#2))).
Definition min (a b : Q) : Q := if Qle_bool a b then a else b.

Definition create (cps : list CheckpointConfig) : ProgressMonitor :=
  {| checkpoints := cps; activeTracking := [];
     totalTokensUsed := 0; totalCostIncurred := 0 |}.

Definition with_tracking (m : ProgressMonitor)
    (a : list (string * ActiveTracking)) : ProgressMonitor :=
  {| checkpoints := checkpoints m; activeTracking := a;
     totalTokensUsed := totalTokensUsed m;
     totalCostIncurred := totalCostIncurred m |}.

Definition start (m : ProgressMonitor) (providerId : string) (cb : option string)
    (now : Q) : ProgressMonitor :=
  with_tracking m
    (JsMap.set (activeTracking m) providerId
       {| at_provider := providerId; startTime := now;
          startTokens := totalTokensUsed m;
          lastCheckpointTime := now;
          lastCheckpointTokens := totalTokensUsed m;
          callback := cb |}).

Definition finish (m : ProgressMonitor) (providerId : string) (now : Q)
    : ProgressMonitor * Calls :=
  match JsMap.get (activeTracking m) providerId with
  | None => (m, [])
  | Some tracking =>
      let dur := now - startTime tracking in
      let used := totalTokensUsed m - startTokens tracking in
      let calls :=
        match callback tracking with
        | Some cb =>
            [(cb, {| pu_provider := providerId; tokensUsed := used;
                     costIncurred := totalCostIncurred m; pu_duration := dur;
                     percentage := 100; status := complete; pu_error := None |})]
        | None => []
        end in
      (with_tracking m (JsMap.remove (activeTracking m) providerId), calls)
  end.

Definition checkProgress (m : ProgressMonitor) (providerId : string) (now : Q)
    : ProgressMonitor * Calls :=
  match JsMap.get (activeTracking m) providerId with
  | None => (m, [])
  | Some tracking =>
      match callback tracking with
      | None => (m, [])
      | Some cb =>
          let dur := now - startTime tracking in
          let used := totalTokensUsed m - startTokens tracking in
          let timeSinceLastCheckpoint := now - lastCheckpointTime tracking in
          let tokensSinceLastCheckpoint :=
            totalTokensUsed m - lastCheckpointTokens tracking in
          let shouldNotify :=
            existsb (fun cp =>
                       Num.ge timeSinceLastCheckpoint (timeInterval cp)
                       || Num.ge tokensSinceLastCheckpoint (tokenInterval cp))
                    (checkpoints m) in
          if shouldNotify then
            let estimatedPercentage := min (round ((used / 1000) * 100)) 95 in
            (with_tracking m
               (JsMap.set (activeTracking m) providerId
                  {| at_provider := at_provider tracking;
                     startTime := startTime tracking;
                     startTokens := startTokens tracking;
                     lastCheckpointTime := now;
                     lastCheckpointTokens := totalTokensUsed m;
                     callback := callback tracking |}),
             [(cb, {| pu_provider := providerId; tokensUsed := used;
                      costIncurred := totalCostIncurred m; pu_duration := dur;
                      percentage := estimatedPercentage; status := in_progress;
                      pu_error := None |})])
          else (m, [])
      end
  end.

Definition updateTokens (m : ProgressMonitor) (tk c now : Q)
    : ProgressMonitor * Calls :=
  let m := {| checkpoints := checkpoints m; activeTracking := activeTracking m;
              totalTokensUsed := totalTokensUsed m + tk;
              totalCostIncurred := totalCostIncurred m + c |} in
  fold_left
    (fun acc providerId =>
       let '(m', calls) := checkProgress (fst acc) providerId now in
       (m', snd acc ++ calls))
    (JsMap.keys (activeTracking m)) (m, []).

Definition getTotalStats (m : ProgressMonitor) : Q * Q * Q :=
  (totalTokensUsed m, totalCostIncurred m, Num.len (activeTracking m)).

Definition reset (m : ProgressMonitor) : ProgressMonitor :=
  {| checkpoints := checkpoints m; activeTracking := [];
     totalTokensUsed := 0; totalCostIncurred := 0 |}.

(** No active tracking has a callback. *)
Definition quiet (m : ProgressMonitor) : Prop :=
  Forall (fun e => callback (snd e) = None) (activeTracking m).

(** The operations the router performs on its monitor, and a client's. *)
Inductive Op :=
| op_start (providerId : string) (cb : option string)
| op_finish (providerId : string)
| op_check (providerId : string)
| op_tokens (tk c : Q).

Definition step (m : ProgressMonitor) (o : Op) (now : Q) : ProgressMonitor * Calls :=
  match o with
  | op_start id cb => (start m id cb now, [])
  | op_finish id => finish m id now
  | op_check id => checkProgress m id now
  | op_tokens tk c => updateTokens m tk c now
  end.

Definition without_callback (o : Op) : Prop :=
  match o with
  | op_start _ (Some _) => False
  | _ => True
  end.

(** A sequence of operations, each at its time, and every callback call it
    makes, in order. *)
Definition run (m : ProgressMonitor) (ops : list (Op * Q)) : ProgressMonitor * Calls :=
  fold_left
    (fun acc o =>
       let '(m', calls) := step (fst acc) (fst o) (snd o) in
       (m', snd acc ++ calls))
    ops (m, []).

Definition positive_intervals (m : ProgressMonitor) : Prop :=
  Forall (fun cp => 0 < timeInterval cp /\ 0 < tokenInterval cp) (checkpoints m).

End Monitor.

(** ** Provider base class ([src/providers/base.ts]) *)

Module BaseProvider.

Definition calculateCost (cfg : ProviderConfig) (tokens : Q) : Q :=
  let costPerMillion := costPerMillionTokens cfg in
  (tokens / 1000000) * costPerMillion.

(** [createResponse], on the fields of the response the router reads. *)
Definition createResponse (id : string) (cfg : ProviderConfig) (text : string)
    (tk : Tokens) : ChatResponse :=
  {| content := text; response_provider := id; tokens := tk;
     cost := calculateCost cfg (total tk) |}.

End BaseProvider.

(** ** Concrete routers, after the mock providers of the test suite *)

Module Examples.
Import Router.

Definition mockResponse (id : string) : ChatResponse :=
  {| content := "Mock response"; response_provider := id;
     tokens := {| input := 10; output := 20; total := 30 |};
     cost := 1 # 1000 |}.

Definition mockConfig (id : string) (on : bool) (prio c lat av : Q) : ProviderConfig :=
  {| config_id := id; enabled := on; priority := prio;
     costPerMillionTokens := c; latency := lat; availability := av |}.

Definition mockProvider (cfg : ProviderConfig) (shouldFail : bool) (lat : Q) : Provider :=
  let run := fun _ : ChatRequest =>
    if shouldFail then {| settled := Rejected "Provider failed"; elapsed := 0 |}
    else {| settled := Fulfilled (mockResponse (config_id cfg)); elapsed := lat |} in
  {| provider_id := config_id cfg; config := cfg; chat := run; chatStream := run |}.

Definition provider1 :=
  mockProvider (mockConfig "provider-1" true 10 (15#100) 500 (99#100)) false 100.
Definition provider2 :=
  mockProvider (mockConfig "provider-2" true 20 (25#100) 600 (99#100)) false 100.
Definition provider3 :=
  mockProvider (mockConfig "provider-3" true 30 0 2000 (9#10)) false 100.
Definition failing :=
  mockProvider (mockConfig "failing" true 1 (15#100) 500 (99#100)) true 100.

Definition testConfig (s : RoutingStrategy) (b : option BudgetLimits)
    (rl : option RateLimits) (sc : option SpeculativeConfig) : RoutingConfig :=
  {| strategy := s; fallbackEnabled := true; config_budgetLimits := b;
     config_rateLimits := rl; speculativeConfig := sc |}.

Definition registerAll (r : Router) (ps : list Provider) : Router :=
  fold_left registerProvider ps r.

(** The router of [tests/router.test.ts], after [initialize()]. *)
Definition testRouter (s : RoutingStrategy) : Router :=
  initialize
    (registerAll (create (testConfig s None None None))
       [provider1; provider2; provider3]).

Definition testRequest : ChatRequest :=
  {| prompt := "test"; messages := None; maxTokens := None |}.

(** One enabled, healthy endpoint behind a daily ceiling of one token. *)
Definition tightBudget : BudgetLimits :=
  {| dailyTokens := 1; dailyCost := 0; monthlyTokens := 0; monthlyCost := 0 |}.

Definition budgetRouter : Router :=
  initialize
    (registerAll (create (testConfig priority_strategy (Some tightBudget) None None))
       [provider1]).

(** One healthy endpoint behind a ceiling of one request per minute, with
    one request recorded a second ago. *)
Definition tightRate : RateLimits :=
  {| requestsPerMinute := 1; tokensPerMinute := 0 |}.

Definition rateRouter : Router :=
  let r := initialize
             (registerAll (create (testConfig priority_strategy None (Some tightRate) None))
                [provider1]) in
  with_limiter r
    (Limiter.recordUsage (limiter r) 1000 {| input := 1; output := 1; total := 2 |}).


(** A limiter whose four ceilings are zero, with usage on its ledgers. *)
Definition unlimited : BudgetLimits :=
  {| dailyTokens := 0; dailyCost := 0; monthlyTokens := 0; monthlyCost := 0 |}.

Definition usedLimiter (b : option BudgetLimits) : Limiter.TokenLimiter :=
  Limiter.recordUsage (Limiter.create b None) 1000
    {| input := 0; output := 1000000; total := 1000000 |}.

Definition largeRequest : ChatRequest :=
  {| prompt := "Large request"; messages := None; maxTokens := Some 1000000 |}.


(** An endpoint whose adapter rejects the prompt ["bad"] and answers every
    other prompt after 100 ms. *)
Definition flaky : Provider :=
  let run := fun request : ChatRequest =>
    if String.eqb (prompt request) "bad"
    then {| settled := Rejected "Provider failed"; elapsed := 0 |}
    else {| settled := Fulfilled (mockResponse "flaky"); elapsed := 100 |} in
  {| provider_id := "flaky";
     config := mockConfig "flaky" true 1 (15#100) 500 (99#100);
     chat := run; chatStream := run |}.

Definition flakyRouter : Router :=
  initialize
    (registerAll (create (testConfig priority_strategy None None None)) [flaky]).

Definition badRequest : ChatRequest :=
  {| prompt := "bad"; messages := None; maxTokens := None |}.

(** [route(badRequest)] followed by [route(testRequest)]. *)
Definition afterBadThenGood (latencyAverage : Q -> Q -> Q -> Q) : Router :=
  let first := route latencyAverage flakyRouter 1000 badRequest in
  final (route latencyAverage (final first) (clock first) testRequest).

(** A provider that answers through [createResponse], at 3 dollars per
    million tokens. *)
Definition pricedConfig : ProviderConfig := mockConfig "priced" true 1 3 100 1.

Definition priced : Provider :=
  let run := fun _ : ChatRequest =>
    {| settled := Fulfilled (BaseProvider.createResponse "priced" pricedConfig "ok"
                               {| input := 10; output := 20; total := 30 |});
       elapsed := 100 |} in
  {| provider_id := "priced"; config := pricedConfig; chat := run; chatStream := run |}.

Definition pricedRouter : Router :=
  initialize
    (registerAll (create (testConfig priority_strategy None None None)) [priced]).

End Examples.

(** * Properties *)

(** ** Comparisons *)

Module NumFacts.

Lemma gt_spec a b : Num.gt a b = true <-> b < a.
Proof.
  unfold Num.gt. rewrite negb_true_iff. split.
  - intros H. apply Qnot_le_lt. intros Hle. apply Qle_bool_iff in Hle. congruence.
  - intros H. destruct (Qle_bool a b) eqn:E; [|reflexivity].
    apply Qle_bool_iff in E. lra.
Qed.

Lemma gt_false a b : Num.gt a b = false <-> a <= b.
Proof.
  unfold Num.gt. rewrite negb_false_iff. apply Qle_bool_iff.
Qed.

Lemma lt_spec a b : Num.lt a b = true <-> a < b.
Proof. apply (gt_spec b a). Qed.

Lemma lt_false a b : Num.lt a b = false <-> b <= a.
Proof. apply (gt_false b a). Qed.

End NumFacts.

(** ** [js_sort] *)

Section SortFacts.
Context {A : Type} (compare : A -> A -> Q).

Lemma sort_insert_perm x l : Permutation (x :: l) (sort_insert compare x l).
Proof.
  induction l as [|y l IH]; simpl; [reflexivity|].
  destruct (Num.gt (compare x y) 0); [|reflexivity].
  rewrite perm_swap. now apply perm_skip.
Qed.

Lemma js_sort_perm l : Permutation l (js_sort compare l).
Proof.
  induction l as [|x l IH]; simpl; [reflexivity|].
  rewrite <- sort_insert_perm. now apply perm_skip.
Qed.

Lemma js_sort_length l : List.length (js_sort compare l) = List.length l.
Proof. symmetry. apply Permutation_length, js_sort_perm. Qed.

(** A comparator that subtracts keys sorts by non-decreasing key. *)
Variable key : A -> Q.
Hypothesis compare_key : forall a b, compare a b == key a - key b.

Lemma sort_insert_sorted x l :
  StronglySorted Qle (map key l) ->
  StronglySorted Qle (map key (sort_insert compare x l)).
Proof.
  induction l as [|y l IH]; simpl; intros Hs.
  - repeat constructor.
  - inversion Hs as [|? ? Hl Hy]; subst.
    destruct (Num.gt (compare x y) 0) eqn:E; simpl.
    + apply NumFacts.gt_spec in E. rewrite compare_key in E.
      constructor; [now apply IH|].
      rewrite <- (Permutation_map key (sort_insert_perm x l)). simpl.
      constructor; [lra | assumption].
    + apply NumFacts.gt_false in E. rewrite compare_key in E.
      constructor; [assumption|].
      constructor; [lra|].
      eapply Forall_impl; [exact Hy|]. simpl. intros z Hz. lra.
Qed.

Lemma js_sort_sorted l : StronglySorted Qle (map key (js_sort compare l)).
Proof.
  induction l as [|x l IH]; simpl; [constructor|].
  now apply sort_insert_sorted.
Qed.
End SortFacts.

(** ** The provider registry *)

Module JsMapFacts.
Section Facts.
Context {V : Type}.
Implicit Types (m : list (string * V)) (k : string) (v : V).

Lemma get_set_eq m k v : JsMap.get (JsMap.set m k v) k = Some v.
Proof.
  induction m as [|[k' v'] m IH]; simpl.
  - now rewrite String.eqb_refl.
  - destruct (String.eqb k' k) eqn:E; simpl; rewrite E; auto.
Qed.

Lemma get_set_ne m k k' v :
  k <> k' -> JsMap.get (JsMap.set m k v) k' = JsMap.get m k'.
Proof.
  intros Hne. induction m as [|[k0 v0] m IH]; simpl.
  - destruct (String.eqb k k') eqn:E; [|reflexivity].
    apply String.eqb_eq in E. contradiction.
  - destruct (String.eqb k0 k) eqn:E; simpl.
    + apply String.eqb_eq in E. subst k0.
      destruct (String.eqb k k') eqn:E'; [|reflexivity].
      apply String.eqb_eq in E'. contradiction.
    + now rewrite IH.
Qed.

Lemma in_keys_get m k : In k (JsMap.keys m) -> exists v, JsMap.get m k = Some v.
Proof.
  induction m as [|[k' v'] m IH]; simpl; [tauto|].
  intros [->|Hin].
  - rewrite String.eqb_refl. eauto.
  - destruct (String.eqb k' k); eauto.
Qed.

Lemma get_in_keys m k v : JsMap.get m k = Some v -> In k (JsMap.keys m).
Proof.
  induction m as [|[k' v'] m IH]; simpl; [discriminate|].
  destruct (String.eqb k' k) eqn:E.
  - apply String.eqb_eq in E. auto.
  - auto.
Qed.
End Facts.
End JsMapFacts.

(** ** Candidate selection *)

Module SelectFacts.
Import Router.

Lemma availableProviders_registered ps id :
  In id (availableProviders ps) -> exists p, JsMap.get ps id = Some p.
Proof.
  unfold availableProviders. intros Hin.
  apply JsMapFacts.in_keys_get. unfold JsMap.keys.
  apply in_map_iff in Hin as [e [<- He]].
  apply filter_In in He as [He _]. now apply in_map.
Qed.

Lemma sortByBalanced_perm ps ids : Permutation ids (sortByBalanced ps ids).
Proof.
  unfold sortByBalanced.
  rewrite <- (js_sort_perm _ (map (fun id => (id, field ps balancedScore id)) ids)).
  rewrite map_map. simpl. now rewrite List.map_id.
Qed.




(** Every strategy returns the enabled identifiers, reordered. *)
Lemma selectProviders_perm r ids :
  selectProviders r = inr ids -> Permutation ids (availableProviders (providers r)).
Proof.
  unfold selectProviders.
  destruct (availableProviders (providers r)) as [|a l] eqn:E; [discriminate|].
  intros H. inversion H; subst; clear H.
  destruct (strategy (routing r)); symmetry;
    first [ exact (js_sort_perm _ (a :: l)) | apply sortByBalanced_perm
          | reflexivity ].
Qed.

Lemma selectProviders_registered r ids :
  selectProviders r = inr ids ->
  Forall (fun id => exists p, JsMap.get (providers r) id = Some p) ids.
Proof.
  intros H. apply Forall_forall. intros id Hin.
  apply list_elem_of_In in Hin.
  apply availableProviders_registered.
  eapply Permutation_in; [apply (selectProviders_perm _ _ H)|exact Hin].
Qed.

End SelectFacts.

Module Selection.
Import Router SelectFacts Examples.

Lemma selectProviders_inr r ids :
  selectProviders r = inr ids ->
  ids = match strategy (routing r) with
        | cost_strategy => sortByCost (providers r) (availableProviders (providers r))
        | speed => sortBySpeed (providers r) (availableProviders (providers r))
        | quality => sortByQuality (providers r) (availableProviders (providers r))
        | balanced => sortByBalanced (providers r) (availableProviders (providers r))
        | priority_strategy | fallback =>
            sortByPriority (providers r) (availableProviders (providers r))
        | speculative => availableProviders (providers r)
        end.
Proof.
  unfold selectProviders.
  destruct (availableProviders (providers r)) as [|a l]; [discriminate|].
  intros H. injection H as <-. now destruct (strategy (routing r)).
Qed.

Lemma sorted_by_field ps (f : ProviderConfig -> Q) ids :
  StronglySorted Qle
    (map (field ps f) (js_sort (fun a b => field ps f a - field ps f b) ids)).
Proof. apply js_sort_sorted. intros a b. reflexivity. Qed.

(** C5.  Whatever the registry, the order selected under the cost strategy
    is non-decreasing in the declared cost per million tokens, under the
    speed strategy in the declared latency, and under the quality, priority
    and fallback strategies in the declared priority rank; in each case it
    is a reordering of the enabled identifiers. *)
Theorem selection_sorted_by_declared_key (r : Router) (ids : list string) :
  selectProviders r = inr ids ->
  Permutation ids (availableProviders (providers r)) /\
  Forall (fun id => exists p, JsMap.get (providers r) id = Some p) ids /\
  (strategy (routing r) = cost_strategy ->
   StronglySorted Qle (map (field (providers r) costPerMillionTokens) ids)) /\
  (strategy (routing r) = speed ->
   StronglySorted Qle (map (field (providers r) latency) ids)) /\
  (strategy (routing r) = quality \/ strategy (routing r) = priority_strategy
   \/ strategy (routing r) = fallback ->
   StronglySorted Qle (map (field (providers r) priority) ids)).
Proof.
  intros H. split; [now apply selectProviders_perm|].
  split; [now apply selectProviders_registered|].
  apply selectProviders_inr in H. subst ids.
  repeat split.
  - intros ->. apply sorted_by_field.
  - intros ->. apply sorted_by_field.
  - intros [-> | [-> | ->]]; apply sorted_by_field.
Qed.

Lemma selection_sorted_by_declared_key_witness :
  selectProviders (testRouter cost_strategy)
    = inr ["provider-3"; "provider-1"; "provider-2"]%string /\
  StronglySorted Qle
    (map (field (providers (testRouter cost_strategy)) costPerMillionTokens)
       ["provider-3"; "provider-1"; "provider-2"]%string).
Proof.
  split; [reflexivity|].
  apply (selection_sorted_by_declared_key (testRouter cost_strategy)
           ["provider-3"; "provider-1"; "provider-2"]%string);
    reflexivity.
Defined.


(** *** The registry and the configuration are read-only for the engine *)

Lemma updateMetrics_registry avg r id resp dur now :
  providers (updateMetrics avg r id resp dur now) = providers r /\
  routing (updateMetrics avg r id resp dur now) = routing r.
Proof. unfold updateMetrics. now destruct (providerMetrics (metrics r) !! id). Qed.

Lemma updateFailureMetrics_registry r id :
  providers (updateFailureMetrics r id) = providers r /\
  routing (updateFailureMetrics r id) = routing r.
Proof. unfold updateFailureMetrics. now destruct (providerMetrics (metrics r) !! id). Qed.

Lemma tryProviders_registry avg req start sel todo :
  forall r now atts calls,
    providers (final (tryProviders avg req start sel todo r now atts calls)) = providers r /\
    routing (final (tryProviders avg req start sel todo r now atts calls)) = routing r.
Proof.
  induction todo as [|id rest IH]; intros r now atts calls; simpl; [auto|].
  destruct (JsMap.get (providers r) id) as [p|]; [|apply IH].
  destruct (settled (chat p req)) as [resp|msg]; simpl.
  - apply updateMetrics_registry.
  - destruct (updateFailureMetrics_registry r id) as [Hp Hc].
    rewrite Hc. destruct (fallbackEnabled (routing r)); simpl; [|auto].
    destruct (IH (updateFailureMetrics r id) (now + elapsed (chat p req))
                 (atts ++ [failed id (now + elapsed (chat p req) - now) msg])
                 (calls ++ [id])) as [Hp' Hc'].
    split; congruence.
Qed.

Lemma route_registry avg r now req :
  providers (final (route avg r now req)) = providers r /\
  routing (final (route avg r now req)) = routing r.
Proof.
  unfold route, throw.
  destruct (initialized r); simpl; [|auto].
  destruct (Limiter.allowed _); simpl; [|auto].
  destruct (Limiter.rl_allowed _); simpl; [|auto].
  destruct (selectProviders r) as [e|sel]; simpl; [auto|].
  destruct (strategy (routing r)); simpl; auto using tryProviders_registry.
Qed.




(** *** Race candidates *)




End Selection.

(** ** Budget gate *)

Module LimiterFacts.
Import Limiter Examples.

Lemma gt_zero_false (x : Q) : x == 0 -> Num.gt x 0 = false.
Proof. intros H. apply NumFacts.gt_false. lra. Qed.

(** A denial names a dimension whose ceiling is positive and is exceeded by
    the projected usage it reports. *)
Lemma checkBudgetWith_denied b l now req why :
  reason (checkBudgetWith b l now req) = Some why ->
  0 < ceiling_of b (dimension why) /\
  limit (checkBudgetWith b l now req) = ceiling_of b (dimension why) /\
  limit (checkBudgetWith b l now req) < usage (checkBudgetWith b l now req).
Proof.
  unfold checkBudgetWith.
  destruct (calculateDailyUsage l now) as [dT dC].
  destruct (calculateMonthlyUsage l now) as [mT mC].
  repeat match goal with
         | |- context [if ?c && ?d then _ else _] =>
             let E1 := fresh "E" in let E2 := fresh "E" in
             destruct c eqn:E1; simpl;
             [destruct d eqn:E2; simpl|]
         end;
    intros H; try discriminate; injection H as <-; simpl;
    repeat match goal with
           | E : Num.gt _ _ = true |- _ => apply NumFacts.gt_spec in E
           end;
    auto.
Qed.

Lemma checkBudgetWith_allowed_iff b l now req :
  allowed (checkBudgetWith b l now req) = false
  <-> exists why, reason (checkBudgetWith b l now req) = Some why.
Proof.
  unfold checkBudgetWith.
  destruct (calculateDailyUsage l now) as [dT dC].
  destruct (calculateMonthlyUsage l now) as [mT mC].
  repeat match goal with
         | |- context [if ?c then _ else _] => destruct c; simpl
         end;
    split; intros H; try discriminate; eauto; destruct H as [? H]; discriminate.
Qed.

(** C8.  Without a budget configuration [checkBudget] allows every request;
    with one, a denial always names a dimension whose configured ceiling is
    positive, so a ceiling of zero is never what denies a request; and when
    the four ceilings are zero every request is allowed, whatever usage has
    been recorded. *)
Theorem checkBudget_zero_is_unlimited (l : TokenLimiter) (now : Q)
    (request : ChatRequest) :
  (budgetLimits l = None -> allowed (checkBudget l now request) = true) /\
  (allowed (checkBudget l now request) = false ->
   exists b why,
     budgetLimits l = Some b /\
     reason (checkBudget l now request) = Some why /\
     ~ ceiling_of b (dimension why) == 0 /\
     0 < ceiling_of b (dimension why) /\
     limit (checkBudget l now request) = ceiling_of b (dimension why) /\
     limit (checkBudget l now request) < usage (checkBudget l now request)) /\
  (forall b, budgetLimits l = Some b ->
     dailyTokens b == 0 -> dailyCost b == 0 ->
     monthlyTokens b == 0 -> monthlyCost b == 0 ->
     allowed (checkBudget l now request) = true).
Proof.
  unfold checkBudget. repeat split.
  - now intros ->.
  - destruct (budgetLimits l) as [b|]; [|discriminate].
    intros H. apply checkBudgetWith_allowed_iff in H as [why Hwhy].
    destruct (checkBudgetWith_denied _ _ _ _ _ Hwhy) as (Hpos & Hlim & Hover).
    exists b, why. repeat split; auto. intros Hz. lra.
  - intros b -> H1 H2 H3 H4. unfold checkBudgetWith.
    destruct (calculateDailyUsage l now) as [dT dC].
    destruct (calculateMonthlyUsage l now) as [mT mC].
    rewrite !gt_zero_false by assumption. reflexivity.
Qed.

Lemma checkBudget_zero_is_unlimited_witness :
  allowed (checkBudget (usedLimiter None) 2000 largeRequest) = true /\
  allowed (checkBudget (usedLimiter (Some unlimited)) 2000 largeRequest) = true /\
  dimension_denied (usedLimiter (Some tightBudget)) 2000 largeRequest = Some DailyTokens.
Proof.
  split; [|split].
  - apply (checkBudget_zero_is_unlimited (usedLimiter None) 2000 largeRequest).
    reflexivity.
  - apply (checkBudget_zero_is_unlimited (usedLimiter (Some unlimited)) 2000
             largeRequest) with (b := unlimited); reflexivity.
  - destruct (checkBudget_zero_is_unlimited (usedLimiter (Some tightBudget)) 2000
                largeRequest) as (_ & H & _).
    destruct (H eq_refl) as (b & why & Hb & Hwhy & _).
    unfold dimension_denied. rewrite Hwhy.
    vm_compute in Hwhy. injection Hwhy as <-. reflexivity.
Defined.

End LimiterFacts.

(** ** Metrics *)

Module MetricsFacts.
Import Router Examples.

(** The two revisions of the average agree in exact arithmetic. *)
Lemma resummed_incremental avg sample count :
  ~ count == 0 -> resummedAverage avg sample count == incrementalAverage avg sample count.
Proof. intros H. unfold resummedAverage, incrementalAverage. field. assumption. Qed.

(** A failed attempt touches the endpoint's request and failure counts and
    nothing else of its entry. *)
Lemma updateFailureMetrics_entry r id pm :
  providerMetrics (metrics r) !! id = Some pm ->
  exists pm',
    providerMetrics (metrics (updateFailureMetrics r id)) !! id = Some pm' /\
    requestCount pm' = requestCount pm + 1 /\
    failureCount pm' = failureCount pm + 1 /\
    successCount pm' = successCount pm /\
    pm_totalTokens pm' = pm_totalTokens pm /\
    pm_totalCost pm' = pm_totalCost pm /\
    avgLatency pm' = avgLatency pm /\
    lastUsed pm' = lastUsed pm.
Proof.
  intros H. unfold updateFailureMetrics. rewrite H. simpl.
  rewrite lookup_insert_eq. eexists. split; [reflexivity|]. simpl. tauto.
Qed.

Lemma reset_fold ids : forall m id,
  let m' := fold_left
              (fun m id => with_providerMetrics m
                 (<[id := createEmptyProviderMetrics id]> (providerMetrics m)))
              ids m in
  totalRequests m' = totalRequests m /\
  rm_totalCost m' = rm_totalCost m /\
  rm_totalTokens m' = rm_totalTokens m /\
  budgetUsage m' = budgetUsage m /\
  rateLimitHits m' = rateLimitHits m /\
  fallbackCount m' = fallbackCount m /\
  speculativeExecutionMetrics m' = speculativeExecutionMetrics m /\
  providerMetrics m' !! id
  = if decide (id ∈ ids) then Some (createEmptyProviderMetrics id)
    else providerMetrics m !! id.
Proof.
  induction ids as [|k ids IH]; intros m id; simpl.
  - repeat split; reflexivity.
  - specialize (IH (with_providerMetrics m
                      (<[k := createEmptyProviderMetrics k]> (providerMetrics m))) id).
    simpl in IH. destruct IH as (H1 & H2 & H3 & H4 & H5 & H6 & H7 & H8).
    repeat split; try assumption.
    rewrite H8. destruct (decide (id ∈ ids)) as [Hin|Hin].
    + rewrite decide_True by (apply elem_of_cons; auto). reflexivity.
    + destruct (decide (k = id)) as [->|Hne].
      * rewrite decide_True by (apply elem_of_cons; auto). apply lookup_insert_eq.
      * rewrite decide_False by (rewrite elem_of_cons; intros [?|?]; congruence).
        now apply lookup_insert_ne.
Qed.

(** C9, as the code has it.  After [resetMetrics()], [getMetrics()] returns
    global counters that are all zero and a per-endpoint map holding one
    all-zero entry for each registered endpoint and nothing else; the map
    is empty exactly when no endpoint is registered. *)
Theorem reset_then_get_metrics (r : Router) :
  let m := getMetrics (resetMetrics r) in
  totalRequests m = 0 /\ rm_totalCost m = 0 /\ rm_totalTokens m = 0 /\
  rateLimitHits m = 0 /\ fallbackCount m = 0 /\
  budgetUsage m = budgetUsage createEmptyMetrics /\
  speculativeExecutionMetrics m = None /\
  (forall id,
     providerMetrics m !! id
     = match JsMap.get (providers r) id with
       | Some _ => Some (createEmptyProviderMetrics id)
       | None => None
       end) /\
  (providerMetrics m = ∅ <-> providers r = []).
Proof.
  assert (Hlookup : forall id,
     providerMetrics (getMetrics (resetMetrics r)) !! id
     = match JsMap.get (providers r) id with
       | Some _ => Some (createEmptyProviderMetrics id)
       | None => None
       end).
  { intros id. unfold getMetrics, resetMetrics. simpl.
    destruct (reset_fold (JsMap.keys (providers r)) createEmptyMetrics id)
      as (_ & _ & _ & _ & _ & _ & _ & H).
    rewrite H. destruct (decide (id ∈ JsMap.keys (providers r))) as [Hin|Hin].
    - apply list_elem_of_In, JsMapFacts.in_keys_get in Hin as [v ->]. reflexivity.
    - destruct (JsMap.get (providers r) id) eqn:E.
      + apply JsMapFacts.get_in_keys, list_elem_of_In in E. contradiction.
      + reflexivity. }
  simpl.
  destruct (reset_fold (JsMap.keys (providers r)) createEmptyMetrics ""%string)
    as (H1 & H2 & H3 & H4 & H5 & H6 & H7 & _).
  unfold getMetrics, resetMetrics in *. simpl in *.
  repeat split; try assumption.
  - intros Hempty. destruct (providers r) as [|[k v] ps] eqn:E; [reflexivity|].
    specialize (Hlookup k). rewrite Hempty in Hlookup. simpl in Hlookup.
    rewrite String.eqb_refl in Hlookup. discriminate.
  - intros ->. reflexivity.
Qed.

(** With an endpoint registered the per-endpoint map is not empty after a
    reset. *)
Lemma reset_leaves_registered_entries :
  providerMetrics (getMetrics (resetMetrics (testRouter balanced))) <> ∅.
Proof.
  intros H.
  apply (f_equal (fun m : gmap string ProviderMetrics => m !! "provider-1"%string)) in H.
  vm_compute in H. discriminate.
Qed.

(** C10.  [registerProvider(p)] sets the metrics entry of [p.id] to the
    all-zero entry, whatever it held, and leaves the entry of every other
    identifier as it was. *)
Theorem registerProvider_resets_entry (r : Router) (p : Provider) (id : string) :
  providerMetrics (metrics (registerProvider r p)) !! id
  = if decide (id = provider_id p)
    then Some {| providerId := provider_id p; requestCount := 0; successCount := 0;
                 failureCount := 0; pm_totalTokens := 0; pm_totalCost := 0;
                 avgLatency := 0; lastUsed := 0 |}
    else providerMetrics (metrics r) !! id.
Proof.
  unfold registerProvider. simpl.
  destruct (decide (id = provider_id p)) as [->|Hne].
  - apply lookup_insert_eq.
  - apply lookup_insert_ne. congruence.
Qed.


(** On an endpoint that only ever succeeds, the average latency is the
    running average of the durations. *)
Lemma replay_successes id : forall events r pm,
  Forall (fun e => e <> Failure) events ->
  providerMetrics (metrics r) !! id = Some pm ->
  exists pm',
    providerMetrics (metrics (replay incrementalAverage id r events)) !! id = Some pm' /\
    avgLatency pm'
    = runningAverage (avgLatency pm) (requestCount pm) (successDurations events).
Proof.
  induction events as [|e events IH]; intros r pm Hall Hpm; simpl.
  - eauto.
  - apply Forall_cons in Hall as [He Hall].
    destruct e as [resp dur now|]; [|congruence]. simpl.
    edestruct (IH (updateMetrics incrementalAverage r id resp dur now)) as (pm' & H1 & H2);
      [exact Hall| |].
    + unfold updateMetrics. rewrite Hpm. simpl. apply lookup_insert_eq.
    + exists pm'. split; [exact H1|]. rewrite H2. reflexivity.
Qed.

(** C7 on the code.  An endpoint whose first request failed and whose second
    request succeeded in 100 ms reports an average latency of 50 ms, in
    both revisions of [updateMetrics]: the divisor is the request count,
    which failed attempts also increment.  The running average of the
    successful durations is 100 ms. *)
Theorem average_latency_diluted_by_failures :
  (exists pm,
     providerMetrics (getMetrics (afterBadThenGood incrementalAverage)) !! "flaky"%string
     = Some pm /\
     requestCount pm == 2 /\ successCount pm == 1 /\ failureCount pm == 1 /\
     avgLatency pm == 50) /\
  (exists pm,
     providerMetrics (getMetrics (afterBadThenGood resummedAverage)) !! "flaky"%string
     = Some pm /\
     avgLatency pm == 50) /\
  (exists resp now,
     successDurations [Failure; Success resp 100 now] = [100] /\
     runningAverage 0 0 [100] == 100 /\
     forall pm,
       providerMetrics
         (metrics (replay incrementalAverage "flaky" flakyRouter
                     [Failure; Success resp 100 now])) !! "flaky"%string = Some pm ->
       avgLatency pm == 50 /\ ~ avgLatency pm == runningAverage 0 0 [100]).
Proof.
  split; [|split].
  - eexists. split; [vm_compute; reflexivity|]. repeat split; reflexivity.
  - eexists. split; [vm_compute; reflexivity|]. reflexivity.
  - exists (mockResponse "flaky"), 1100. split; [reflexivity|]. split; [reflexivity|].
    intros pm H. vm_compute in H. injection H as <-. split; [reflexivity|].
    simpl. intros E. vm_compute in E. discriminate.
Qed.

End MetricsFacts.

(** ** The routing loop *)

Module RouteFacts.
Import Router Examples.

Lemma len_app_positive {A} (l : list A) (x : A) : Num.gt (Num.len (l ++ [x])) 0 = true.
Proof.
  apply NumFacts.gt_spec. unfold Num.len. rewrite length_app. simpl.
  unfold Qlt. simpl. lia.
Qed.

Lemma tryProviders_fallbackTriggered avg req start sel todo :
  forall r now atts calls res,
    outcome (tryProviders avg req start sel todo r now atts calls) = Returned res ->
    fallbackTriggered (routingDecision res) = true.
Proof.
  induction todo as [|id rest IH]; intros r now atts calls res; simpl; [discriminate|].
  destruct (JsMap.get (providers r) id) as [p|]; [|apply IH].
  destruct (settled (chat p req)) as [resp|msg]; simpl.
  - intros H. injection H as <-. simpl. apply len_app_positive.
  - destruct (negb (fallbackEnabled (routing (updateFailureMetrics r id)))); simpl;
      [discriminate|apply IH].
Qed.

(** C1 on the code.  Every [route()] call that returns a result reports
    [fallbackTriggered = true]: the flag is computed from the length of the
    attempts array after the successful attempt has been pushed onto it.  In
    particular it is [true] when the first candidate tried succeeds and no
    attempt has failed. *)
Theorem route_fallbackTriggered_always_true
    (latencyAverage : Q -> Q -> Q -> Q) (r : Router) (now : Q)
    (request : ChatRequest) (res : RoutingResult) :
  outcome (route latencyAverage r now request) = Returned res ->
  fallbackTriggered (routingDecision res) = true.
Proof.
  unfold route, throw.
  destruct (negb (initialized r)); simpl; [discriminate|].
  destruct (negb (Limiter.allowed _)); simpl; [discriminate|].
  destruct (negb (Limiter.rl_allowed _)); simpl; [discriminate|].
  destruct (selectProviders r) as [e|sel]; simpl; [discriminate|].
  destruct (strategy (routing r)); simpl;
    first [discriminate | apply tryProviders_fallbackTriggered].
Qed.

Lemma route_fallbackTriggered_always_true_witness :
  exists res,
    outcome (route incrementalAverage (testRouter priority_strategy) 1000 testRequest)
    = Returned res /\
    map attempt_provider (attempts res) = ["provider-1"%string] /\
    map success (attempts res) = [true] /\
    fallbackTriggered (routingDecision res) = true.
Proof.
  eexists. split; [vm_compute; reflexivity|].
  split; [reflexivity|]. split; [reflexivity|].
  apply (route_fallbackTriggered_always_true incrementalAverage
           (testRouter priority_strategy) 1000 testRequest).
  vm_compute. reflexivity.
Defined.

(** *** Gates *)

(** [route] stops at a budget denial before selecting or calling anything. *)
Lemma route_budget_gate avg r now req :
  initialized r = true ->
  Limiter.allowed (Limiter.checkBudget (limiter r) now req) = false ->
  exists why ty u lim,
    route avg r now req
    = {| outcome := Thrown (BudgetExceededError why ty u lim); final := r;
         clock := now; invoked := []; recorded := [] |}.
Proof.
  intros Hi Hb. unfold route, throw. rewrite Hi, Hb. simpl. eauto.
Qed.

Lemma route_rate_gate avg r now req :
  initialized r = true ->
  Limiter.allowed (Limiter.checkBudget (limiter r) now req) = true ->
  Limiter.rl_allowed (Limiter.checkRateLimits (limiter r) now) = false ->
  exists why who retry,
    route avg r now req
    = {| outcome := Thrown (RateLimitError why who retry); final := r;
         clock := now; invoked := []; recorded := [] |}.
Proof.
  intros Hi Hb Hr. unfold route, throw. rewrite Hi, Hb, Hr. simpl. eauto.
Qed.

Lemma tryStreams_no_gate avg req start sel todo :
  forall r now atts calls,
    gate_error (outcome (tryStreams avg req start sel todo r now atts calls)) = false.
Proof.
  induction todo as [|id rest IH]; intros r now atts calls; simpl; [reflexivity|].
  destruct (JsMap.get (providers r) id) as [p|]; [|apply IH].
  destruct (settled (chatStream p req)) as [resp|msg]; simpl; [reflexivity|].
  destruct (negb (fallbackEnabled (routing r))); simpl; [reflexivity|apply IH].
Qed.

(** [routeStream] never raises a budget or rate error. *)
Lemma routeStream_no_gate avg r now req :
  gate_error (outcome (routeStream avg r now req)) = false.
Proof.
  unfold routeStream, throw.
  destruct (negb (initialized r)); simpl; [reflexivity|].
  unfold selectProviders.
  destruct (availableProviders (providers r)); simpl; [reflexivity|].
  apply tryStreams_no_gate.
Qed.

(** C2 on the code.  Behind a budget that denies the request, [route]
    throws the budget error without calling an adapter, while [routeStream]
    on the same router calls the adapter, records a successful attempt and
    returns; the same happens behind an exhausted rate limit.  This holds in
    both revisions of the metrics update. *)
Theorem routeStream_skips_gates (latencyAverage : Q -> Q -> Q -> Q) :
  (Limiter.allowed (Limiter.checkBudget (limiter budgetRouter) 1000 testRequest) = false /\
   gate_error (outcome (route latencyAverage budgetRouter 1000 testRequest)) = true /\
   invoked (route latencyAverage budgetRouter 1000 testRequest) = [] /\
   (exists res,
      outcome (routeStream latencyAverage budgetRouter 1000 testRequest) = Returned res) /\
   invoked (routeStream latencyAverage budgetRouter 1000 testRequest)
   = ["provider-1"%string] /\
   map success (recorded (routeStream latencyAverage budgetRouter 1000 testRequest))
   = [true]) /\
  (Limiter.rl_allowed (Limiter.checkRateLimits (limiter rateRouter) 2000) = false /\
   gate_error (outcome (route latencyAverage rateRouter 2000 testRequest)) = true /\
   invoked (route latencyAverage rateRouter 2000 testRequest) = [] /\
   (exists res,
      outcome (routeStream latencyAverage rateRouter 2000 testRequest) = Returned res) /\
   invoked (routeStream latencyAverage rateRouter 2000 testRequest)
   = ["provider-1"%string] /\
   map success (recorded (routeStream latencyAverage rateRouter 2000 testRequest))
   = [true]).
Proof.
  split; repeat split; try reflexivity; eexists; vm_compute; reflexivity.
Qed.

End RouteFacts.

(** ** The expectations of the test suite, replayed on the embedding *)

Module TestSuite.
Import Router Examples.

(** [tests/router.test.ts], "should route with cost strategy". *)
Example cost_routes_to_free_provider :
  exists res,
    outcome (route incrementalAverage (testRouter cost_strategy) 1000 testRequest)
    = Returned res /\ result_provider res = "provider-3"%string.
Proof. eexists. split; [vm_compute; reflexivity|reflexivity]. Qed.

(** "should route with quality strategy". *)
Example quality_routes_to_first_rank :
  exists res,
    outcome (route incrementalAverage (testRouter quality) 1000 testRequest)
    = Returned res /\ result_provider res = "provider-1"%string.
Proof. eexists. split; [vm_compute; reflexivity|reflexivity]. Qed.

(** "should fallback to next provider on failure". *)
Example fallback_after_failure :
  exists res,
    outcome (route incrementalAverage
               (registerProvider (testRouter balanced) failing) 1000 testRequest)
    = Returned res /\
    map success (attempts res) = [false; true] /\
    fallbackTriggered (routingDecision res) = true.
Proof. eexists. split; [vm_compute; reflexivity|]. split; reflexivity. Qed.

(** "should not fallback when disabled". *)
Example no_fallback_when_disabled :
  let cfg := {| strategy := priority_strategy; fallbackEnabled := false;
                config_budgetLimits := None; config_rateLimits := None;
                speculativeConfig := None |} in
  let r := initialize (registerAll (create cfg) [provider1; failing]) in
  outcome (route incrementalAverage r 1000 testRequest)
  = Thrown (AdapterError "Provider failed") /\
  invoked (route incrementalAverage r 1000 testRequest) = ["failing"%string].
Proof. split; reflexivity. Qed.

(** "should track request metrics". *)
Example metrics_after_one_request :
  let m := getMetrics (final (route incrementalAverage (testRouter balanced) 1000
                                testRequest)) in
  totalRequests m == 1 /\ rm_totalTokens m == 30 /\ 0 < rm_totalCost m.
Proof. repeat split. Qed.

(** [tests/limiter.test.ts], "should block requests exceeding daily cost
    budget". *)
Example daily_cost_budget_blocks :
  let limits := {| dailyTokens := 1000000; dailyCost := 10;
                   monthlyTokens := 25000000; monthlyCost := 300 |} in
  let check := Limiter.checkBudget (usedLimiter (Some limits)) 2000 largeRequest in
  Limiter.allowed check = false /\ Limiter.budgetType check = Some Limiter.daily.
Proof. split; reflexivity. Qed.

(** Registering an endpoint a second time discards what it had accumulated
    and leaves the other entries alone. *)
Example reregistration_discards_counts :
  let r := final (route incrementalAverage (testRouter priority_strategy) 1000
                    testRequest) in
  (requestCount <$> providerMetrics (metrics r) !! "provider-1"%string) = Some (0 + 1) /\
  (requestCount <$> providerMetrics (metrics (registerProvider r provider1))
                      !! "provider-1"%string) = Some 0 /\
  providerMetrics (metrics (registerProvider r provider1)) !! "provider-2"%string
  = providerMetrics (metrics r) !! "provider-2"%string.
Proof. repeat split. Qed.

End TestSuite.

(** ** The usage ledgers and the rate window *)

Module LedgerFacts.
Import Limiter Examples.

Lemma sum_snoc {A} (f : A -> Q) (l : list A) (x : A) :
  Num.sum f (l ++ [x]) = Num.sum f l + f x.
Proof. unfold Num.sum. now rewrite fold_left_app. Qed.

Lemma filter_snoc {A} (p : A -> bool) (l : list A) (x : A) :
  List.filter p (l ++ [x])
  = List.filter p l ++ (if p x then [x] else []).
Proof. rewrite List.filter_app. reflexivity. Qed.

Lemma filter_narrow {A} (p q : A -> bool) (l : list A) :
  (forall x, q x = true -> p x = true) ->
  List.filter q (List.filter p l) = List.filter q l.
Proof.
  intros H. induction l as [|x l IH]; simpl; [reflexivity|].
  destruct (p x) eqn:Ep; simpl.
  - now rewrite IH.
  - destruct (q x) eqn:Eq; [|exact IH].
    apply H in Eq. congruence.
Qed.

Lemma window_narrow (w now now' x : Q) :
  now <= now' -> Num.gt x (now' - w) = true -> Num.gt x (now - w) = true.
Proof.
  intros Hle H. apply NumFacts.gt_spec in H. apply NumFacts.gt_spec. lra.
Qed.

Lemma fresh_in_window (w now : Q) : 0 < w -> Num.gt now (now - w) = true.
Proof. intros H. apply NumFacts.gt_spec. lra. Qed.



Lemma record_then_filter (w now : Q) (u : list UsageRecord) (rec : UsageRecord) :
  0 < w -> u_timestamp rec = now ->
  List.filter (fun r => Num.gt (u_timestamp r) (now - w))
    (List.filter (fun r => Num.gt (u_timestamp r) (now - w)) (u ++ [rec]))
  = List.filter (fun r => Num.gt (u_timestamp r) (now - w)) u ++ [rec].
Proof.
  intros Hw Hrec. rewrite filter_narrow by auto.
  rewrite filter_snoc, Hrec, fresh_in_window by assumption. reflexivity.
Qed.

Lemma recordUsage_daily (l : TokenLimiter) (now : Q) (tk : Tokens) :
  calculateDailyUsage (recordUsage l now tk) now
  = (fst (calculateDailyUsage l now) + total tk,
     snd (calculateDailyUsage l now) + estimateCost (total tk)).
Proof.
  unfold calculateDailyUsage, recordUsage. simpl.
  rewrite record_then_filter by (reflexivity || lra). now rewrite !sum_snoc.
Qed.

Lemma recordUsage_monthly (l : TokenLimiter) (now : Q) (tk : Tokens) :
  calculateMonthlyUsage (recordUsage l now tk) now
  = (fst (calculateMonthlyUsage l now) + total tk,
     snd (calculateMonthlyUsage l now) + estimateCost (total tk)).
Proof.
  unfold calculateMonthlyUsage, recordUsage. simpl.
  rewrite record_then_filter by (reflexivity || lra). now rewrite !sum_snoc.
Qed.

(** X2.  Recording usage adds exactly the recorded tokens, and their cost at
    one dollar per million, to what the daily and the monthly snapshot
    showed just before; on an unused limiter the snapshot shows the
    recorded tokens in both. *)
Theorem recordUsage_accounts (l : TokenLimiter) (now : Q) (tk : Tokens) :
  let before := getBudgetUsage l now in
  let after := getBudgetUsage (recordUsage l now tk) now in
  snap_dailyTokens after = snap_dailyTokens before + total tk /\
  snap_monthlyTokens after = snap_monthlyTokens before + total tk /\
  snap_dailyCost after = snap_dailyCost before + estimateCost (total tk) /\
  snap_monthlyCost after = snap_monthlyCost before + estimateCost (total tk) /\
  (dailyUsage l = [] -> monthlyUsage l = [] ->
   snap_dailyTokens after == total tk /\ snap_monthlyTokens after == total tk).
Proof.
  cbv zeta. unfold getBudgetUsage.
  cbn [snap_dailyTokens snap_monthlyTokens snap_dailyCost snap_monthlyCost].
  rewrite recordUsage_daily, recordUsage_monthly. cbn [fst snd].
  repeat split.
  - unfold calculateDailyUsage. rewrite H. simpl. unfold Num.sum. simpl. lra.
  - unfold calculateMonthlyUsage. rewrite H0. simpl. unfold Num.sum. simpl. lra.
Qed.

Lemma recordUsage_accounts_witness :
  snap_dailyTokens
    (getBudgetUsage (recordUsage (create None None) 1000
                       {| input := 100; output := 200; total := 300 |}) 1000) == 300.
Proof.
  apply (recordUsage_accounts (create None None) 1000
           {| input := 100; output := 200; total := 300 |}); reflexivity.
Defined.


(** *** Rate ceilings *)

Lemma ge_spec a b : Num.ge a b = true <-> b <= a.
Proof. unfold Num.ge. apply Qle_bool_iff. Qed.

Lemma ge_false a b : Num.ge a b = false <-> a < b.
Proof.
  unfold Num.ge. split.
  - intros H. apply Qnot_le_lt. intros Hle. apply Qle_bool_iff in Hle. congruence.
  - intros H. destruct (Qle_bool b a) eqn:E; [|reflexivity].
    apply Qle_bool_iff in E. lra.
Qed.

(** X3.  A rate check passes exactly when, for each of the two ceilings, the
    ceiling is not positive or the count inside the last minute is strictly
    below it; without a rate configuration it always passes. *)
Theorem checkRateLimits_allowed_iff (l : TokenLimiter) (now : Q) :
  rl_allowed (checkRateLimits l now) = true <->
  match rateLimits l with
  | None => True
  | Some rl =>
      (requestsPerMinute rl <= 0 \/ requestsInWindow l now < requestsPerMinute rl) /\
      (tokensPerMinute rl <= 0 \/ tokensInWindow l now < tokensPerMinute rl)
  end.
Proof.
  unfold checkRateLimits, checkTokenRate, requestsInWindow, tokensInWindow.
  destruct (rateLimits l) as [rl|]; [|simpl; tauto].
  destruct (Num.gt (requestsPerMinute rl) 0) eqn:E1; simpl.
  - apply NumFacts.gt_spec in E1.
    destruct (Num.ge _ (requestsPerMinute rl)) eqn:E2; simpl.
    + apply ge_spec in E2. split; [discriminate|]. intros [[H|H] _]; lra.
    + apply ge_false in E2.
      destruct (Num.gt (tokensPerMinute rl) 0) eqn:E3; simpl.
      * apply NumFacts.gt_spec in E3.
        destruct (Num.ge _ (tokensPerMinute rl)) eqn:E4; simpl.
        -- apply ge_spec in E4. split; [discriminate|]. intros [_ [H|H]]; lra.
        -- apply ge_false in E4. tauto.
      * apply NumFacts.gt_false in E3. tauto.
  - apply NumFacts.gt_false in E1.
    destruct (Num.gt (tokensPerMinute rl) 0) eqn:E3; simpl.
    + apply NumFacts.gt_spec in E3.
      destruct (Num.ge _ (tokensPerMinute rl)) eqn:E4; simpl.
      * apply ge_spec in E4. split; [discriminate|]. intros [_ [H|H]]; lra.
      * apply ge_false in E4. tauto.
    + apply NumFacts.gt_false in E3. tauto.
Qed.

Lemma hd_filter_in {A} (p : A -> bool) (d : A) (l : list A) :
  List.filter p l <> [] ->
  p (hd d (List.filter p l)) = true /\ In (hd d (List.filter p l)) l.
Proof.
  intros Hne. destruct (List.filter p l) as [|x rest] eqn:E; [contradiction|].
  assert (Hin : In x (List.filter p l)) by (rewrite E; now left).
  apply filter_In in Hin. simpl. tauto.
Qed.

(** X4.  When the request ceiling denies a call, the retry-after it reports
    is a whole number of seconds, at least 1, and at most 60 when no
    recorded request is dated after the check; a denial by the token
    ceiling carries no retry-after. *)
Theorem retryAfter_bounds (l : TokenLimiter) (now : Q) (recent : Q) :
  rl_reason (checkRateLimits l now) = Some (RequestRateExceeded recent) ->
  exists seconds : Z,
    retryAfter (checkRateLimits l now) = Some (inject_Z seconds) /\
    (1 <= seconds)%Z /\
    (Forall (fun t => t <= now) (requestHistory l) -> (seconds <= 60)%Z).
Proof.
  unfold checkRateLimits, checkTokenRate.
  destruct (rateLimits l) as [rl|]; [|discriminate].
  set (recents := List.filter (fun t => Num.gt t (now - 60000)) (requestHistory l)).
  destruct (Num.gt (requestsPerMinute rl) 0) eqn:E1; simpl.
  - destruct (Num.ge (Num.len recents) (requestsPerMinute rl)) eqn:E2; simpl.
    + intros _. apply NumFacts.gt_spec in E1. apply ge_spec in E2.
      assert (Hne : recents <> []).
      { intros E. rewrite E in E2. unfold Num.len in E2. simpl in E2.
        change (inject_Z (Z.of_nat 0)) with 0 in E2. lra. }
      destruct (hd_filter_in _ 0 _ Hne) as [Hwin Hin]. fold recents in Hwin, Hin.
      apply NumFacts.gt_spec in Hwin.
      set (x := (hd 0 recents + 60000 - now) / 1000) in *.
      assert (Hx : 0 < x) by (unfold x; apply Qlt_shift_div_l; lra).
      exists (Qceiling x). split; [reflexivity|]. split.
      * pose proof (Qle_ceiling x) as Hc.
        destruct (Z_lt_le_dec (Qceiling x) 1) as [Hlt|]; [|assumption].
        assert (inject_Z (Qceiling x) <= inject_Z 0)
          by (rewrite <- Zle_Qle; lia).
        change (inject_Z 0) with 0 in *. lra.
      * intros Hall. rewrite List.Forall_forall in Hall. apply Hall in Hin.
        assert (Hx60 : x <= 60) by (unfold x; apply Qle_shift_div_r; lra).
        apply Qceiling_resp_le in Hx60.
        replace (Qceiling 60) with 60%Z in Hx60 by reflexivity. exact Hx60.
    + destruct (Num.gt (tokensPerMinute rl) 0); [|simpl; discriminate].
      destruct (Num.ge (Num.sum _ _) _); simpl; discriminate.
  - destruct (Num.gt (tokensPerMinute rl) 0); [|simpl; discriminate].
    destruct (Num.ge (Num.sum _ _) _); simpl; discriminate.
Qed.

Lemma retryAfter_bounds_witness :
  rl_reason (checkRateLimits (Router.limiter rateRouter) 2000) = Some (RequestRateExceeded 1) /\
  exists seconds : Z,
    retryAfter (checkRateLimits (Router.limiter rateRouter) 2000) = Some (inject_Z seconds) /\
    (1 <= seconds)%Z.
Proof.
  split; [reflexivity|].
  destruct (retryAfter_bounds (Router.limiter rateRouter) 2000 1 eq_refl)
    as (seconds & H1 & H2 & _).
  exists seconds. split; assumption.
Defined.


Lemma len_snoc {A} (l : list A) (x : A) : Num.len (l ++ [x]) == Num.len l + 1.
Proof.
  unfold Num.len. rewrite length_app. simpl.
  rewrite Nat2Z.inj_add. rewrite inject_Z_plus. reflexivity.
Qed.

(** X5.  A recorded request counts toward the request window and the token
    window of every later check made less than 60 seconds after it, and of
    no check made 60 seconds after it or later. *)
Theorem recorded_request_counts_for_a_minute (l : TokenLimiter) (t t' : Q)
    (tk : Tokens) :
  t <= t' ->
  requestsInWindow (recordUsage l t tk) t'
  == requestsInWindow l t' + (if Num.lt t' (t + 60000) then 1 else 0) /\
  tokensInWindow (recordUsage l t tk) t'
  == tokensInWindow l t' + (if Num.lt t' (t + 60000) then total tk else 0).
Proof.
  intros Hle. unfold requestsInWindow, tokensInWindow, recordUsage. simpl.
  rewrite !filter_narrow by (intros x; apply window_narrow, Hle).
  rewrite !filter_snoc. simpl.
  destruct (Num.lt t' (t + 60000)) eqn:E.
  - apply NumFacts.lt_spec in E.
    assert (Hin : Num.gt t (t' - 60000) = true) by (apply NumFacts.gt_spec; lra).
    rewrite Hin. split; [apply len_snoc|]. rewrite sum_snoc. reflexivity.
  - apply NumFacts.lt_false in E.
    assert (Hout : Num.gt t (t' - 60000) = false) by (apply NumFacts.gt_false; lra).
    rewrite Hout, !app_nil_r. split; lra.
Qed.

Lemma recorded_request_counts_for_a_minute_witness :
  requestsInWindow (recordUsage (create None None) 1000
                      {| input := 1; output := 1; total := 2 |}) 60999 == 1 /\
  requestsInWindow (recordUsage (create None None) 1000
                      {| input := 1; output := 1; total := 2 |}) 61000 == 0.
Proof.
  split.
  - destruct (recorded_request_counts_for_a_minute (create None None) 1000 60999
                {| input := 1; output := 1; total := 2 |}) as [H _].
    + unfold Qle; simpl; lia.
    + rewrite H. reflexivity.
  - destruct (recorded_request_counts_for_a_minute (create None None) 1000 61000
                {| input := 1; output := 1; total := 2 |}) as [H _].
    + unfold Qle; simpl; lia.
    + rewrite H. reflexivity.
Defined.

(** X6.  After [resetAllUsage] the rate check passes whatever the ceilings,
    and the usage snapshot shows no tokens and no cost. *)
Theorem resetAllUsage_reopens (l : TokenLimiter) (now : Q) :
  rl_allowed (checkRateLimits (resetAllUsage l) now) = true /\
  snap_dailyTokens (getBudgetUsage (resetAllUsage l) now) = 0 /\
  snap_dailyCost (getBudgetUsage (resetAllUsage l) now) = 0 /\
  snap_monthlyTokens (getBudgetUsage (resetAllUsage l) now) = 0 /\
  snap_monthlyCost (getBudgetUsage (resetAllUsage l) now) = 0.
Proof.
  split; [|repeat split].
  unfold checkRateLimits, checkTokenRate, resetAllUsage. simpl.
  destruct (rateLimits l) as [rl|]; [|reflexivity].
  assert (Hempty : forall c, Num.gt c 0 = true -> Num.ge 0 c = false).
  { intros c Hc. apply NumFacts.gt_spec in Hc. apply ge_false. exact Hc. }
  change (Num.len []) with 0. change (Num.sum tu_tokens []) with 0.
  destruct (Num.gt (requestsPerMinute rl) 0) eqn:E1;
    [rewrite (Hempty _ E1)|]; simpl;
    (destruct (Num.gt (tokensPerMinute rl) 0) eqn:E2;
       [rewrite (Hempty _ E2)|]; reflexivity).
Qed.

(** *** The budget check *)




(** X9.  The token estimate of a text is the least whole number that is at
    least a quarter of its length; the empty text is estimated at zero. *)
Theorem estimateTextTokens_bounds (text : string) :
  exists n : Z,
    estimateTextTokens text = inject_Z n /\
    (Z.of_nat (String.length text) <= 4 * n < Z.of_nat (String.length text) + 4)%Z /\
    (text = ""%string -> n = 0%Z).
Proof.
  unfold estimateTextTokens, Num.ceil, Num.strlen.
  set (len := Z.of_nat (String.length text)).
  exists (Qceiling (inject_Z len / 4)). split; [reflexivity|].
  pose proof (Qle_ceiling (inject_Z len / 4)) as Hup.
  pose proof (Qceiling_lt (inject_Z len / 4)) as Hlo.
  set (n := Qceiling (inject_Z len / 4)) in *.
  assert (Hq : inject_Z len == inject_Z len / 4 * 4) by field.
  set (q := inject_Z len / 4) in *.
  assert (H1 : inject_Z len <= inject_Z (4 * n)).
  { rewrite inject_Z_mult. change (inject_Z 4) with 4. lra. }
  assert (H2 : inject_Z (4 * (n - 1)) < inject_Z len).
  { rewrite inject_Z_mult. change (inject_Z 4) with 4.
    unfold Z.sub. rewrite inject_Z_plus. change (inject_Z (-1)) with (-1).
    unfold Z.sub in Hlo. rewrite inject_Z_plus in Hlo.
    change (inject_Z (-1)) with (-1) in Hlo. lra. }
  rewrite <- Zle_Qle in H1. rewrite <- Zlt_Qlt in H2.
  split; [lia|]. intros ->. subst len n. reflexivity.
Qed.

End LedgerFacts.

(** ** The registry and what selection draws from it *)

Module RegistryFacts.
Import Router Examples.

Lemma keys_set_known {V} (m : list (string * V)) k v :
  In k (JsMap.keys m) -> JsMap.keys (JsMap.set m k v) = JsMap.keys m.
Proof.
  unfold JsMap.keys. induction m as [|[k' v'] m IH]; simpl; [tauto|].
  destruct (String.eqb k' k) eqn:E; simpl; [reflexivity|].
  apply String.eqb_neq in E. intros [?|Hin]; [congruence|]. now rewrite IH.
Qed.

Lemma keys_set_new {V} (m : list (string * V)) k v :
  ~ In k (JsMap.keys m) -> JsMap.keys (JsMap.set m k v) = JsMap.keys m ++ [k].
Proof.
  unfold JsMap.keys. induction m as [|[k' v'] m IH]; simpl; [reflexivity|].
  intros Hnotin. destruct (String.eqb k' k) eqn:E; simpl.
  - apply String.eqb_eq in E. tauto.
  - rewrite IH by tauto. reflexivity.
Qed.

Lemma keys_set {V} (m : list (string * V)) k v :
  JsMap.keys (JsMap.set m k v)
  = if decide (k ∈ JsMap.keys m) then JsMap.keys m else JsMap.keys m ++ [k].
Proof.
  destruct (decide (k ∈ JsMap.keys m)) as [H|H].
  - apply keys_set_known. now apply list_elem_of_In.
  - apply keys_set_new. now rewrite <- list_elem_of_In.
Qed.

Lemma get_in {V} (m : list (string * V)) k v :
  NoDup (JsMap.keys m) -> (In (k, v) m <-> JsMap.get m k = Some v).
Proof.
  induction m as [|[k' v'] m IH]; simpl; intros Hnd.
  - split; [tauto|discriminate].
  - apply NoDup_cons in Hnd as [Hnotin Hnd].
    destruct (String.eqb k' k) eqn:E.
    + apply String.eqb_eq in E. subst k'. split.
      * intros [H|H]; [now inversion H|].
        exfalso. apply Hnotin. apply list_elem_of_In.
        apply (in_map fst) in H. exact H.
      * intros H. left. congruence.
    + apply String.eqb_neq in E. rewrite <- (IH Hnd). split.
      * intros [H|H]; [inversion H; congruence|assumption].
      * auto.
Qed.

Lemma registerProvider_keeps_unique r p : registry_ok r -> registry_ok (registerProvider r p).
Proof.
  unfold registerProvider, registry_ok. simpl. intros Hnd. rewrite keys_set.
  destruct (decide (provider_id p ∈ JsMap.keys (providers r))); [assumption|].
  apply NoDup_app. split; [assumption|]. split.
  - intros x Hx Hx'. apply list_elem_of_singleton in Hx'. congruence.
  - apply NoDup_singleton.
Qed.

(** X10.  Registration is last-write-wins and keeps identifiers unique: the
    registered provider is what its identifier then resolves to, every other
    identifier resolves as before, a new identifier goes to the end of the
    registration order and a known one keeps its place. *)
Theorem registerProvider_registry (r : Router) (p : Provider) :
  JsMap.get (providers (registerProvider r p)) (provider_id p) = Some p /\
  (forall id, id <> provider_id p ->
     JsMap.get (providers (registerProvider r p)) id = JsMap.get (providers r) id) /\
  JsMap.keys (providers (registerProvider r p))
  = (if decide (provider_id p ∈ JsMap.keys (providers r))
     then JsMap.keys (providers r)
     else JsMap.keys (providers r) ++ [provider_id p]) /\
  (registry_ok r -> registry_ok (registerProvider r p)).
Proof.
  unfold registerProvider, registry_ok. simpl. repeat split.
  - apply JsMapFacts.get_set_eq.
  - intros id Hne. apply JsMapFacts.get_set_ne. congruence.
  - apply keys_set.
  - apply registerProvider_keeps_unique.
Qed.

Lemma available_enabled ps id :
  NoDup (JsMap.keys ps) ->
  (In id (availableProviders ps) <->
   exists p, JsMap.get ps id = Some p /\ enabled (config p) = true).
Proof.
  intros Hnd. unfold availableProviders. rewrite in_map_iff. split.
  - intros [[k p] [<- Hin]]. apply filter_In in Hin as [Hin Hen]. simpl in *.
    exists p. split; [now apply get_in|assumption].
  - intros [p [Hget Hen]]. exists (id, p). split; [reflexivity|].
    apply filter_In. split; [now apply get_in|assumption].
Qed.

Lemma available_nodup ps : NoDup (JsMap.keys ps) -> NoDup (availableProviders ps).
Proof.
  unfold availableProviders, JsMap.keys.
  induction ps as [|[k p] ps IH]; simpl; intros Hnd; [constructor|].
  apply NoDup_cons in Hnd as [Hnotin Hnd].
  destruct (enabled (config p)); simpl; [|auto].
  apply NoDup_cons. split; [|auto].
  intros Hin. apply Hnotin. apply list_elem_of_In in Hin. apply list_elem_of_In.
  apply in_map_iff in Hin as [e [He Hin]]. apply filter_In in Hin as [Hin _].
  apply in_map_iff. eauto.
Qed.

Lemma selectProviders_nodup r ids :
  registry_ok r -> selectProviders r = inr ids -> NoDup ids.
Proof.
  intros Hnd E. rewrite (SelectFacts.selectProviders_perm _ _ E).
  now apply available_nodup.
Qed.

(** X11.  With unique identifiers, selection returns each enabled registered
    identifier exactly once and nothing else, and fails with the
    no-providers error exactly when no registered endpoint is enabled. *)
Theorem selectProviders_exact (r : Router) :
  registry_ok r ->
  match selectProviders r with
  | inr ids =>
      NoDup ids /\
      forall id, In id ids <->
                 exists p, JsMap.get (providers r) id = Some p /\
                           enabled (config p) = true
  | inl e =>
      e = NoProviders /\
      forall id p, JsMap.get (providers r) id = Some p -> enabled (config p) = false
  end.
Proof.
  intros Hnd. destruct (selectProviders r) as [e|ids] eqn:E.
  - unfold selectProviders in E.
    destruct (availableProviders (providers r)) as [|a l] eqn:Ea; [|discriminate].
    split; [congruence|]. intros id p Hget.
    destruct (enabled (config p)) eqn:Hen; [|reflexivity].
    assert (Hin : In id (availableProviders (providers r)))
      by (apply available_enabled; eauto).
    rewrite Ea in Hin. contradiction.
  - pose proof (SelectFacts.selectProviders_perm _ _ E) as Hperm. split.
    + rewrite Hperm. now apply available_nodup.
    + intros id. rewrite <- (available_enabled _ _ Hnd).
      split; intros H.
      * eapply Permutation_in; [exact Hperm|exact H].
      * eapply Permutation_in; [symmetry; exact Hperm|exact H].
Qed.

Lemma selectProviders_exact_witness :
  let r := initialize
             (registerAll (create (testConfig cost_strategy None None None))
                [provider1; mockProvider (mockConfig "off" false 1 0 1 1) false 1]) in
  selectProviders r = inr ["provider-1"%string] /\
  ~ In "off"%string ["provider-1"%string].
Proof.
  intros r. split; [reflexivity|].
  assert (Hok : registry_ok r).
  { unfold registry_ok. vm_compute.
    repeat (apply NoDup_cons; split;
            [rewrite list_elem_of_In; simpl; intuition discriminate|]).
    apply NoDup_nil. constructor. }
  pose proof (selectProviders_exact r Hok) as H.
  change (selectProviders r) with (@inr RouterError _ ["provider-1"%string]) in H.
  destruct H as [_ H]. intros Hin. apply H in Hin as [p [Hget Hen]].
  vm_compute in Hget. injection Hget as <-. discriminate.
Defined.

End RegistryFacts.

(** ** What a [route] call tries, records and bills *)

Module AttemptFacts.
Import Router Examples.

Lemma updateFailureMetrics_frame r id :
  providers (updateFailureMetrics r id) = providers r /\
  routing (updateFailureMetrics r id) = routing r /\
  limiter (updateFailureMetrics r id) = limiter r /\
  initialized (updateFailureMetrics r id) = initialized r /\
  totalRequests (metrics (updateFailureMetrics r id)) = totalRequests (metrics r) /\
  rm_totalCost (metrics (updateFailureMetrics r id)) = rm_totalCost (metrics r) /\
  rm_totalTokens (metrics (updateFailureMetrics r id)) = rm_totalTokens (metrics r).
Proof.
  unfold updateFailureMetrics.
  destruct (providerMetrics (metrics r) !! id); simpl; tauto.
Qed.

(** The shape of every exit of the sequential loop. *)
Lemma tryProviders_shape avg req start sel :
  forall todo r now atts calls,
    Forall (fun id => exists p, JsMap.get (providers r) id = Some p) todo ->
    let e := tryProviders avg req start sel todo r now atts calls in
    exists new,
      recorded e = atts ++ new /\
      invoked e = calls ++ map attempt_provider new /\
      (exists rest, todo = map attempt_provider new ++ rest) /\
      match outcome e with
      | Returned res =>
          attempts res = atts ++ new /\
          selectedProvider (routingDecision res) = result_provider res /\
          alternatives (routingDecision res)
          = List.filter (fun p => negb (String.eqb p (result_provider res))) sel /\
          totalCost res = cost (response res) /\
          exists fails dur,
            new = fails ++ [succeeded (result_provider res) dur] /\
            Forall is_failed fails /\
            (fallbackEnabled (routing r) = false -> fails = [])
      | Thrown (AllProvidersFailed tried) =>
          tried = atts ++ new /\ Forall is_failed new /\
          todo = map attempt_provider new /\
          (todo <> [] -> fallbackEnabled (routing r) = true)
      | Thrown (AdapterError msg) =>
          fallbackEnabled (routing r) = false /\
          exists id dur, new = [failed id dur msg]
      | _ => False
      end.
Proof.
  induction todo as [|id rest IH]; intros r now atts calls Hreg; simpl.
  - exists []. rewrite !app_nil_r. simpl. repeat split; eauto.
  - apply Forall_cons in Hreg as [[p Hp] Hrest]. rewrite Hp.
    destruct (settled (chat p req)) as [resp|msg] eqn:Es; simpl.
    + exists [succeeded id (now + elapsed (chat p req) - now)]. simpl.
      repeat split; eauto.
      exists [], (now + elapsed (chat p req) - now). repeat split; auto.
    + destruct (updateFailureMetrics_frame r id) as (Hps & Hrt & _).
      rewrite Hrt.
      destruct (fallbackEnabled (routing r)) eqn:Ef; simpl.
      * set (f := failed id (now + elapsed (chat p req) - now) msg).
        destruct (IH (updateFailureMetrics r id) (now + elapsed (chat p req))
                    (atts ++ [f]) (calls ++ [id])) as (new & Hrec & Hinv & Hpre & Hout).
        { rewrite Hps. exact Hrest. }
        exists (f :: new). rewrite Hrec, Hinv, <- !app_assoc. simpl.
        split; [reflexivity|]. split; [reflexivity|]. split.
        { destruct Hpre as [rest' ->]. eauto. }
        destruct (outcome (tryProviders avg req start sel rest
                             (updateFailureMetrics r id) _ _ _)) as [res|err|];
          [|destruct err|]; try contradiction.
        -- destruct Hout as (Ha & Hsel & Halt & Hcost & fails & dur & Hnew & Hf & _).
           rewrite Ha, <- app_assoc. repeat split; auto.
           exists (f :: fails), dur. rewrite Hnew. repeat split; auto.
           ++ constructor; [reflexivity|assumption].
           ++ discriminate.
        -- destruct Hout as (Ht & Hf & Htodo & _).
           rewrite Ht, <- app_assoc, Htodo. repeat split; auto.
           constructor; [reflexivity|assumption].
        -- destruct Hout as [Hoff _]. rewrite Hrt in Hoff. congruence.
      * exists [failed id (now + elapsed (chat p req) - now) msg]. simpl.
        repeat split; eauto.
Qed.


Lemma selectProviders_nonempty r ids : selectProviders r = inr ids -> ids <> [].
Proof.
  intros H. pose proof (SelectFacts.selectProviders_perm _ _ H) as Hp.
  unfold selectProviders in H.
  destruct (availableProviders (providers r)); [discriminate|].
  intros ->. apply Permutation_nil in Hp. discriminate.
Qed.

(** How [route] ends: before the loop, handing over to the race, or in the
    loop over the selected identifiers. *)
Lemma route_cases avg r now req :
  (early_error (outcome (route avg r now req)) = true /\
   final (route avg r now req) = r /\ clock (route avg r now req) = now /\
   invoked (route avg r now req) = [] /\ recorded (route avg r now req) = []) \/
  (exists ids, selectProviders r = inr ids /\
     outcome (route avg r now req) = Raced ids /\
     invoked (route avg r now req) = [] /\ recorded (route avg r now req) = [] /\
     final (route avg r now req) = r) \/
  (exists ids, selectProviders r = inr ids /\
     route avg r now req = tryProviders avg req now ids ids r now [] []).
Proof.
  unfold route, throw.
  destruct (negb (initialized r)); simpl; [left; tauto|].
  destruct (negb (Limiter.allowed _)); simpl; [left; tauto|].
  destruct (negb (Limiter.rl_allowed _)); simpl; [left; tauto|].
  destruct (selectProviders r) as [e|ids] eqn:E; simpl.
  - left. unfold selectProviders in E.
    destruct (availableProviders (providers r)); [|discriminate].
    injection E as <-. tauto.
  - destruct (strategy (routing r)); simpl; try (right; right; eauto; fail).
    right. left. exists ids. auto.
Qed.

Lemma route_loop_shape avg r now req ids :
  route avg r now req = tryProviders avg req now ids ids r now [] [] ->
  selectProviders r = inr ids ->
  exists new,
    recorded (route avg r now req) = new /\
    invoked (route avg r now req) = map attempt_provider new /\
    (exists rest, ids = map attempt_provider new ++ rest) /\
    match outcome (route avg r now req) with
    | Returned res =>
        attempts res = new /\
        selectedProvider (routingDecision res) = result_provider res /\
        alternatives (routingDecision res)
        = List.filter (fun p => negb (String.eqb p (result_provider res))) ids /\
        totalCost res = cost (response res) /\
        exists fails dur,
          new = fails ++ [succeeded (result_provider res) dur] /\
          Forall is_failed fails /\
          (fallbackEnabled (routing r) = false -> fails = [])
    | Thrown (AllProvidersFailed tried) =>
        tried = new /\ Forall is_failed new /\
        ids = map attempt_provider new /\
        (ids <> [] -> fallbackEnabled (routing r) = true)
    | Thrown (AdapterError msg) =>
        fallbackEnabled (routing r) = false /\
        exists id dur, new = [failed id dur msg]
    | _ => False
    end.
Proof.
  intros -> Hsel.
  apply (tryProviders_shape avg req now ids ids r now [] []).
  now apply SelectFacts.selectProviders_registered.
Qed.

(** X12.  A [route] call that returns has tried the selected identifiers in
    selection order, one call each, up to the one that answered: its
    attempts are failed attempts followed by exactly one successful attempt,
    that of the returned provider; with fallback disabled there is no failed
    attempt before it. *)
Theorem route_success_shape (latencyAverage : Q -> Q -> Q -> Q) (r : Router)
    (now : Q) (request : ChatRequest) (res : RoutingResult) :
  outcome (route latencyAverage r now request) = Returned res ->
  exists fails dur ids rest,
    attempts res = fails ++ [succeeded (result_provider res) dur] /\
    Forall is_failed fails /\
    (fallbackEnabled (routing r) = false -> fails = []) /\
    invoked (route latencyAverage r now request)
    = map attempt_provider (attempts res) /\
    selectProviders r = inr ids /\
    ids = map attempt_provider (attempts res) ++ rest /\
    selectedProvider (routingDecision res) = result_provider res /\
    totalCost res = cost (response res).
Proof.
  intros Hout.
  destruct (route_cases latencyAverage r now request)
    as [(He & _) | [(ids & _ & Hr & _) | (ids & Hsel & Hloop)]].
  - rewrite Hout in He. discriminate.
  - congruence.
  - destruct (route_loop_shape _ _ _ _ _ Hloop Hsel) as (new & _ & Hinv & Hpre & H).
    rewrite Hout in H.
    destruct H as (Ha & Hs & _ & Hc & fails & dur & Hnew & Hf & Hoff).
    destruct Hpre as [rest Hrest].
    exists fails, dur, ids, rest. rewrite Ha.
    repeat split; auto.
Qed.

Lemma route_success_shape_witness :
  exists res,
    outcome (route incrementalAverage (registerProvider (testRouter balanced) failing)
               1000 testRequest) = Returned res /\
    map success (attempts res) = [false; true] /\
    exists fails dur,
      attempts res = fails ++ [succeeded (result_provider res) dur] /\
      Forall is_failed fails.
Proof.
  eexists. split; [vm_compute; reflexivity|]. split; [reflexivity|].
  destruct (route_success_shape incrementalAverage
              (registerProvider (testRouter balanced) failing) 1000 testRequest _
              eq_refl)
    as (fails & dur & _ & _ & H1 & H2 & _).
  exists fails, dur. split; assumption.
Defined.

(** X13.  A [route] call that ends with the all-providers-failed error had
    fallback enabled and tried every selected identifier once, in selection
    order; the error carries one failed attempt per selected identifier. *)
Theorem route_exhaustion (latencyAverage : Q -> Q -> Q -> Q) (r : Router)
    (now : Q) (request : ChatRequest) (tried : list RoutingAttempt) :
  outcome (route latencyAverage r now request) = Thrown (AllProvidersFailed tried) ->
  fallbackEnabled (routing r) = true /\
  Forall is_failed tried /\
  selectProviders r = inr (map attempt_provider tried) /\
  invoked (route latencyAverage r now request) = map attempt_provider tried /\
  recorded (route latencyAverage r now request) = tried.
Proof.
  intros Hout.
  destruct (route_cases latencyAverage r now request)
    as [(He & _) | [(ids & _ & Hr & _) | (ids & Hsel & Hloop)]].
  - rewrite Hout in He. discriminate.
  - congruence.
  - destruct (route_loop_shape _ _ _ _ _ Hloop Hsel) as (new & Hrec & Hinv & _ & H).
    rewrite Hout in H. destruct H as (-> & Hf & Hids & Hon).
    repeat split; auto.
    + apply Hon. now apply (selectProviders_nonempty r).
    + now rewrite <- Hids.
Qed.

Lemma route_exhaustion_witness :
  let r := initialize
             (registerAll (create (testConfig priority_strategy None None None))
                [failing]) in
  outcome (route incrementalAverage r 1000 testRequest)
  = Thrown (AllProvidersFailed [failed "failing" (1000 + 0 - 1000) "Provider failed"]) /\
  invoked (route incrementalAverage r 1000 testRequest) = ["failing"%string].
Proof.
  intros r. split; [reflexivity|].
  apply (route_exhaustion incrementalAverage r 1000 testRequest
           [failed "failing" (1000 + 0 - 1000) "Provider failed"] eq_refl).
Defined.

(** X14.  A [route] call that re-throws an adapter's error had fallback
    disabled, called only the first selected identifier and recorded that
    one failed attempt with the adapter's message. *)
Theorem route_without_fallback (latencyAverage : Q -> Q -> Q -> Q) (r : Router)
    (now : Q) (request : ChatRequest) (message : string) :
  outcome (route latencyAverage r now request) = Thrown (AdapterError message) ->
  fallbackEnabled (routing r) = false /\
  exists id dur rest,
    selectProviders r = inr (id :: rest) /\
    recorded (route latencyAverage r now request) = [failed id dur message] /\
    invoked (route latencyAverage r now request) = [id].
Proof.
  intros Hout.
  destruct (route_cases latencyAverage r now request)
    as [(He & _) | [(ids & _ & Hr & _) | (ids & Hsel & Hloop)]].
  - rewrite Hout in He. discriminate.
  - congruence.
  - destruct (route_loop_shape _ _ _ _ _ Hloop Hsel) as (new & Hrec & Hinv & Hpre & H).
    rewrite Hout in H. destruct H as (Hoff & id & dur & ->).
    split; [assumption|]. destruct Hpre as [rest Hrest]. simpl in *.
    exists id, dur, rest. subst ids. auto.
Qed.

Lemma route_without_fallback_witness :
  let cfg := {| strategy := priority_strategy; fallbackEnabled := false;
                config_budgetLimits := None; config_rateLimits := None;
                speculativeConfig := None |} in
  let r := initialize (registerAll (create cfg) [provider1; failing]) in
  outcome (route incrementalAverage r 1000 testRequest)
  = Thrown (AdapterError "Provider failed") /\
  fallbackEnabled (routing r) = false.
Proof.
  intros cfg r. split; [reflexivity|].
  apply (route_without_fallback incrementalAverage r 1000 testRequest
           "Provider failed" eq_refl).
Defined.

(** X15.  The adapters a [route] call invokes are a prefix of the selected
    order, so candidates are tried in that order and none is skipped; with
    unique identifiers no endpoint is called twice in one call. *)
Theorem route_tries_in_selection_order (latencyAverage : Q -> Q -> Q -> Q)
    (r : Router) (now : Q) (request : ChatRequest) (ids : list string) :
  selectProviders r = inr ids ->
  (exists rest, ids = invoked (route latencyAverage r now request) ++ rest) /\
  (registry_ok r -> NoDup (invoked (route latencyAverage r now request))).
Proof.
  intros Hsel.
  assert (Hpre : exists rest, ids = invoked (route latencyAverage r now request) ++ rest).
  { destruct (route_cases latencyAverage r now request)
      as [(_ & _ & _ & -> & _) | [(ids' & _ & _ & -> & _) | (ids' & Hsel' & Hloop)]];
      [exists ids; reflexivity | exists ids; reflexivity |].
    destruct (route_loop_shape _ _ _ _ _ Hloop Hsel') as (new & _ & -> & Hpre & _).
    assert (ids' = ids) by congruence. subst ids'. exact Hpre. }
  split; [exact Hpre|].
  intros Hok. destruct Hpre as [rest Hrest].
  pose proof (RegistryFacts.selectProviders_nodup r ids Hok Hsel) as Hnd.
  rewrite Hrest in Hnd. now apply NoDup_app in Hnd as [Hnd _].
Qed.

Lemma route_tries_in_selection_order_witness :
  selectProviders (registerProvider (testRouter priority_strategy) failing)
  = inr ["failing"; "provider-1"; "provider-2"; "provider-3"]%string /\
  exists rest,
    ["failing"; "provider-1"; "provider-2"; "provider-3"]%string
    = invoked (route incrementalAverage
                 (registerProvider (testRouter priority_strategy) failing)
                 1000 testRequest) ++ rest.
Proof.
  split; [reflexivity|].
  apply (route_tries_in_selection_order incrementalAverage
           (registerProvider (testRouter priority_strategy) failing) 1000 testRequest
           ["failing"; "provider-1"; "provider-2"; "provider-3"]%string eq_refl).
Defined.



End AttemptFacts.

(** ** What a call bills and meters *)

Module BillingFacts.
Import Router Examples.

Lemma updateMetrics_frame avg r id resp dur now :
  providers (updateMetrics avg r id resp dur now) = providers r /\
  routing (updateMetrics avg r id resp dur now) = routing r /\
  limiter (updateMetrics avg r id resp dur now) = limiter r /\
  initialized (updateMetrics avg r id resp dur now) = initialized r.
Proof. unfold updateMetrics. destruct (providerMetrics (metrics r) !! id); simpl; tauto. Qed.

Lemma updateMetrics_totals avg r id resp dur now pm :
  providerMetrics (metrics r) !! id = Some pm ->
  totalRequests (metrics (updateMetrics avg r id resp dur now))
  = totalRequests (metrics r) + 1 /\
  rm_totalCost (metrics (updateMetrics avg r id resp dur now))
  = rm_totalCost (metrics r) + cost resp /\
  rm_totalTokens (metrics (updateMetrics avg r id resp dur now))
  = rm_totalTokens (metrics r) + total (tokens resp).
Proof. intros H. unfold updateMetrics. rewrite H. simpl. tauto. Qed.

Lemma updateFailureMetrics_keeps_entries r id id' :
  (exists pm, providerMetrics (metrics r) !! id' = Some pm) ->
  exists pm, providerMetrics (metrics (updateFailureMetrics r id)) !! id' = Some pm.
Proof.
  intros [pm Hpm]. unfold updateFailureMetrics.
  destruct (providerMetrics (metrics r) !! id) as [pm0|] eqn:E; [|eauto].
  simpl. destruct (decide (id = id')) as [->|Hne].
  - rewrite lookup_insert_eq. eauto.
  - rewrite lookup_insert_ne by assumption. eauto.
Qed.

Lemma tryProviders_billing avg req start sel :
  forall todo r now atts calls,
    Forall (fun id => exists p, JsMap.get (providers r) id = Some p) todo ->
    let e := tryProviders avg req start sel todo r now atts calls in
    match outcome e with
    | Returned res =>
        limiter (final e)
        = Limiter.recordUsage (limiter r) (clock e) (tokens (response res)) /\
        (Forall (fun id => exists pm, providerMetrics (metrics r) !! id = Some pm) todo ->
         totalRequests (metrics (final e)) = totalRequests (metrics r) + 1 /\
         rm_totalCost (metrics (final e)) = rm_totalCost (metrics r) + cost (response res) /\
         rm_totalTokens (metrics (final e))
         = rm_totalTokens (metrics r) + total (tokens (response res)))
    | _ => unbilled r (final e)
    end.
Proof.
  induction todo as [|id rest IH]; intros r now atts calls Hreg; simpl.
  - repeat split.
  - apply Forall_cons in Hreg as [[p Hp] Hrest]. rewrite Hp.
    destruct (settled (chat p req)) as [resp|msg] eqn:Es; simpl.
    + destruct (updateMetrics_frame avg r id resp
                  (now + elapsed (chat p req) - now) (now + elapsed (chat p req)))
        as (_ & _ & Hl & _).
      rewrite Hl. split; [reflexivity|].
      intros Hcov. apply Forall_cons in Hcov as [[pm Hpm] _].
      now apply (updateMetrics_totals avg r id resp _ _ pm).
    + destruct (AttemptFacts.updateFailureMetrics_frame r id)
        as (Hps & Hrt & Hl & _ & H1 & H2 & H3).
      rewrite Hrt. destruct (fallbackEnabled (routing r)); simpl.
      * specialize (IH (updateFailureMetrics r id) (now + elapsed (chat p req))
                      (atts ++ [failed id (now + elapsed (chat p req) - now) msg])
                      (calls ++ [id])).
        rewrite Hps in IH. specialize (IH Hrest). simpl in IH.
        destruct (outcome (tryProviders avg req start sel rest
                             (updateFailureMetrics r id) _ _ _)) as [res|err|].
        -- destruct IH as [IHl IHt]. rewrite Hl in IHl. split; [exact IHl|].
           intros Hcov. apply Forall_cons in Hcov as [_ Hcov].
           rewrite <- H1, <- H2, <- H3. apply IHt.
           eapply Forall_impl; [exact Hcov|].
           intros id'. apply updateFailureMetrics_keeps_entries.
        -- unfold unbilled in *. rewrite <- Hl, <- H1, <- H2, <- H3. exact IH.
        -- unfold unbilled in *. rewrite <- Hl, <- H1, <- H2, <- H3. exact IH.
      * unfold unbilled. auto.
Qed.

(** X17.  Only a successful call is billed.  A [route] call that returns has
    recorded the response's tokens with the limiter, once, at the time the
    adapter answered, and (every registered endpoint having a metrics
    entry) has raised the global request, cost and token totals by one
    request and the response's cost and tokens; a call that ends any other
    way leaves the limiter and the global totals as they were. *)
Theorem route_bills_success_only (latencyAverage : Q -> Q -> Q -> Q) (r : Router)
    (now : Q) (request : ChatRequest) :
  let e := route latencyAverage r now request in
  match outcome e with
  | Returned res =>
      limiter (final e)
      = Limiter.recordUsage (limiter r) (clock e) (tokens (response res)) /\
      (metrics_cover r ->
       totalRequests (metrics (final e)) = totalRequests (metrics r) + 1 /\
       rm_totalCost (metrics (final e)) = rm_totalCost (metrics r) + cost (response res) /\
       rm_totalTokens (metrics (final e))
       = rm_totalTokens (metrics r) + total (tokens (response res)))
  | _ =>
      limiter (final e) = limiter r /\
      totalRequests (metrics (final e)) = totalRequests (metrics r) /\
      rm_totalCost (metrics (final e)) = rm_totalCost (metrics r) /\
      rm_totalTokens (metrics (final e)) = rm_totalTokens (metrics r)
  end.
Proof.
  simpl.
  destruct (AttemptFacts.route_cases latencyAverage r now request)
    as [(He & Hf & _) | [(ids & _ & Hr & _ & _ & Hfin) | (ids & Hsel & Hloop)]].
  - rewrite Hf.
    destruct (outcome (route latencyAverage r now request)); [discriminate|tauto|tauto].
  - rewrite Hr, Hfin. tauto.
  - pose proof (SelectFacts.selectProviders_registered _ _ Hsel) as Hreg.
    pose proof (tryProviders_billing latencyAverage request now ids ids r now [] [] Hreg)
      as H.
    simpl in H. rewrite <- Hloop in H.
    destruct (outcome (route latencyAverage r now request)) as [res|err|].
    + destruct H as [Hl Ht]. split; [exact Hl|].
      intros Hcov. apply Ht. eapply Forall_impl; [exact Hreg|].
      intros id [p Hp]. exact (Hcov id p Hp).
    + exact H.
    + exact H.
Qed.


(** *** Streaming *)

Lemma updateMetrics_failureCount avg r id resp dur now id' :
  failureCount <$> providerMetrics (metrics (updateMetrics avg r id resp dur now)) !! id'
  = failureCount <$> providerMetrics (metrics r) !! id'.
Proof.
  unfold updateMetrics.
  destruct (providerMetrics (metrics r) !! id) as [pm|] eqn:E; [|reflexivity].
  simpl. destruct (decide (id = id')) as [->|Hne].
  - rewrite lookup_insert_eq, E. reflexivity.
  - now rewrite lookup_insert_ne.
Qed.

Lemma tryStreams_effects avg req start sel :
  forall todo r now atts calls,
    let e := tryStreams avg req start sel todo r now atts calls in
    (forall id,
       failureCount <$> providerMetrics (metrics (final e)) !! id
       = failureCount <$> providerMetrics (metrics r) !! id) /\
    match outcome e with
    | Returned res => fallbackTriggered (routingDecision res) = false
    | _ => final e = r
    end.
Proof.
  induction todo as [|id rest IH]; intros r now atts calls; simpl; [auto|].
  destruct (JsMap.get (providers r) id) as [p|]; [|apply IH].
  destruct (settled (chatStream p req)) as [resp|msg]; simpl.
  - split; [|reflexivity]. intros id'. apply updateMetrics_failureCount.
  - destruct (negb (fallbackEnabled (routing r))); simpl; [auto|apply IH].
Qed.

(** X18.  Streaming meters no failure.  A [routeStream] call that ends in an
    error leaves the router, its limiter and its metrics exactly as they
    were, whatever adapters it called; a call that returns reports
    [fallbackTriggered = false] whatever failed before the answer; and no
    call changes any endpoint's failure count. *)
Theorem routeStream_meters_no_failure (latencyAverage : Q -> Q -> Q -> Q)
    (r : Router) (now : Q) (request : ChatRequest) :
  let e := routeStream latencyAverage r now request in
  (forall id,
     failureCount <$> providerMetrics (metrics (final e)) !! id
     = failureCount <$> providerMetrics (metrics r) !! id) /\
  match outcome e with
  | Returned res => fallbackTriggered (routingDecision res) = false
  | _ => final e = r
  end.
Proof.
  unfold routeStream, throw.
  destruct (negb (initialized r)); simpl; [auto|].
  destruct (selectProviders r) as [err|ids]; simpl; [auto|].
  apply tryStreams_effects.
Qed.

(** *** Alternatives *)

(** X19.  The alternatives of a returned decision are the selected
    identifiers other than the chosen one, in selection order: the chosen
    provider was selected and is never listed among its alternatives. *)
Theorem alternatives_are_the_other_candidates (latencyAverage : Q -> Q -> Q -> Q)
    (r : Router) (now : Q) (request : ChatRequest) (res : RoutingResult) :
  outcome (route latencyAverage r now request) = Returned res ->
  exists ids,
    selectProviders r = inr ids /\
    In (result_provider res) ids /\
    alternatives (routingDecision res)
    = List.filter (fun id => negb (String.eqb id (result_provider res))) ids /\
    ~ In (result_provider res) (alternatives (routingDecision res)) /\
    (forall id, id <> result_provider res ->
       (In id (alternatives (routingDecision res)) <-> In id ids)).
Proof.
  intros Hout.
  destruct (AttemptFacts.route_cases latencyAverage r now request)
    as [(He & _) | [(ids & _ & Hr & _) | (ids & Hsel & Hloop)]].
  - rewrite Hout in He. discriminate.
  - congruence.
  - destruct (AttemptFacts.route_loop_shape _ _ _ _ _ Hloop Hsel)
      as (new & _ & _ & [rest Hrest] & H).
    rewrite Hout in H.
    destruct H as (_ & _ & Halt & _ & fails & dur & Hnew & _).
    exists ids. split; [assumption|]. split; [|split; [assumption|split]].
    + rewrite Hrest, Hnew, map_app. apply in_or_app. left.
      apply in_or_app. right. now left.
    + rewrite Halt. intros Hin. apply filter_In in Hin as [_ Hne].
      now rewrite String.eqb_refl in Hne.
    + intros id Hne. rewrite Halt, filter_In. split; [tauto|].
      intros Hin. split; [assumption|].
      apply negb_true_iff, String.eqb_neq. assumption.
Qed.

Lemma alternatives_are_the_other_candidates_witness :
  exists res,
    outcome (route incrementalAverage (testRouter cost_strategy) 1000 testRequest)
    = Returned res /\
    result_provider res = "provider-3"%string /\
    alternatives (routingDecision res) = ["provider-1"; "provider-2"]%string /\
    ~ In (result_provider res) (alternatives (routingDecision res)).
Proof.
  eexists. split; [vm_compute; reflexivity|].
  split; [reflexivity|]. split; [reflexivity|].
  destruct (alternatives_are_the_other_candidates incrementalAverage
              (testRouter cost_strategy) 1000 testRequest _ eq_refl)
    as (ids & _ & _ & _ & H & _).
  exact H.
Defined.

End BillingFacts.

(** ** Invariants of every reachable router *)

Module InvariantFacts.
Import Router Examples.

Lemma sound_create cfg : sound (create cfg).
Proof.
  unfold sound, registry_ok, metrics_cover, counts_ok, limits_ok. simpl.
  repeat split.
  - apply NoDup_nil. exact I.
  - discriminate.
  - intros id pm H. rewrite lookup_empty in H. discriminate.
Qed.

Lemma sound_register r p : sound r -> sound (registerProvider r p).
Proof.
  intros (Hreg & Hcov & Hcnt & Hlim). repeat split.
  - now apply RegistryFacts.registerProvider_keeps_unique.
  - intros id q Hq. simpl in *.
    destruct (decide (provider_id p = id)) as [<-|Hne].
    + rewrite lookup_insert_eq. eauto.
    + rewrite lookup_insert_ne by assumption.
      rewrite JsMapFacts.get_set_ne in Hq by assumption. eauto.
  - intros id pm. simpl.
    destruct (decide (provider_id p = id)) as [<-|Hne].
    + rewrite lookup_insert_eq. intros H. injection H as <-. reflexivity.
    + rewrite lookup_insert_ne by assumption. apply Hcnt.
  - apply Hlim.
  - apply Hlim.
Qed.

Lemma sound_reset r : sound r -> sound (resetMetrics r).
Proof.
  intros (Hreg & Hcov & Hcnt & Hlim).
  assert (Hl : forall id, providerMetrics (metrics (resetMetrics r)) !! id
                = if decide (id ∈ JsMap.keys (providers r))
                  then Some (createEmptyProviderMetrics id) else None).
  { intros id. unfold resetMetrics. simpl.
    destruct (MetricsFacts.reset_fold (JsMap.keys (providers r)) createEmptyMetrics id)
      as (_ & _ & _ & _ & _ & _ & _ & H).
    rewrite H. simpl. now rewrite lookup_empty. }
  repeat split; try apply Hlim; try exact Hreg.
  - intros id p Hp. rewrite Hl, decide_True; [eauto|].
    apply list_elem_of_In. eapply JsMapFacts.get_in_keys. exact Hp.
  - intros id pm. rewrite Hl. case_decide; [|discriminate].
    intros Hpm. injection Hpm as <-. reflexivity.
Qed.

Lemma sound_updateMetrics avg r id resp dur now :
  sound r -> sound (updateMetrics avg r id resp dur now).
Proof.
  intros (Hreg & Hcov & Hcnt & Hlim). unfold updateMetrics.
  destruct (providerMetrics (metrics r) !! id) as [pm|] eqn:E; [|exact (conj Hreg (conj Hcov (conj Hcnt Hlim)))].
  split; [exact Hreg|]. split; [|split; [|exact Hlim]].
  - intros id' p Hp. simpl in *. destruct (decide (id = id')) as [->|Hne].
    + rewrite lookup_insert_eq. eauto.
    + rewrite lookup_insert_ne by assumption. eauto.
  - intros id' pm'. simpl. destruct (decide (id = id')) as [->|Hne].
    + rewrite lookup_insert_eq. intros H. injection H as <-. simpl.
      rewrite (Hcnt _ _ E). ring.
    + rewrite lookup_insert_ne by assumption. apply Hcnt.
Qed.

Lemma sound_updateFailureMetrics r id : sound r -> sound (updateFailureMetrics r id).
Proof.
  intros (Hreg & Hcov & Hcnt & Hlim). unfold updateFailureMetrics.
  destruct (providerMetrics (metrics r) !! id) as [pm|] eqn:E; [|exact (conj Hreg (conj Hcov (conj Hcnt Hlim)))].
  split; [exact Hreg|]. split; [|split; [|exact Hlim]].
  - intros id' p Hp. simpl in *. destruct (decide (id = id')) as [->|Hne].
    + rewrite lookup_insert_eq. eauto.
    + rewrite lookup_insert_ne by assumption. eauto.
  - intros id' pm'. simpl. destruct (decide (id = id')) as [->|Hne].
    + rewrite lookup_insert_eq. intros H. injection H as <-. simpl.
      rewrite (Hcnt _ _ E). ring.
    + rewrite lookup_insert_ne by assumption. apply Hcnt.
Qed.

Lemma sound_recordUsage r now tk :
  sound r -> sound (with_limiter r (Limiter.recordUsage (limiter r) now tk)).
Proof. intros (Hreg & Hcov & Hcnt & Hlim). repeat split; auto; apply Hlim. Qed.

Lemma sound_tryProviders avg req start sel :
  forall todo r now atts calls,
    sound r -> sound (final (tryProviders avg req start sel todo r now atts calls)).
Proof.
  induction todo as [|id rest IH]; intros r now atts calls Hs; simpl; [assumption|].
  destruct (JsMap.get (providers r) id) as [p|]; [|now apply IH].
  destruct (settled (chat p req)) as [resp|msg]; simpl.
  - apply sound_recordUsage, sound_updateMetrics, Hs.
  - destruct (negb (fallbackEnabled (routing (updateFailureMetrics r id)))); simpl.
    + now apply sound_updateFailureMetrics.
    + apply IH. now apply sound_updateFailureMetrics.
Qed.

Lemma sound_tryStreams avg req start sel :
  forall todo r now atts calls,
    sound r -> sound (final (tryStreams avg req start sel todo r now atts calls)).
Proof.
  induction todo as [|id rest IH]; intros r now atts calls Hs; simpl; [assumption|].
  destruct (JsMap.get (providers r) id) as [p|]; [|now apply IH].
  destruct (settled (chatStream p req)) as [resp|msg]; simpl.
  - apply sound_recordUsage, sound_updateMetrics, Hs.
  - destruct (negb (fallbackEnabled (routing r))); simpl; [assumption|now apply IH].
Qed.

(** X20.  In every router state reachable by [new Router], [registerProvider],
    [initialize], [resetMetrics], [route] and [routeStream]: identifiers are
    unique in the registry, every registered endpoint has a metrics entry,
    every entry's request count is its success count plus its failure count,
    and the limiter holds the ceilings of the routing configuration. *)
Theorem reachable_routers_are_sound (latencyAverage : Q -> Q -> Q -> Q) (r : Router) :
  Reachable latencyAverage r ->
  registry_ok r /\ metrics_cover r /\ counts_ok r /\ limits_ok r.
Proof.
  intros H. change (sound r). induction H.
  - apply sound_create.
  - now apply sound_register.
  - exact IHReachable.
  - now apply sound_reset.
  - unfold route, throw.
    destruct (negb (initialized r)); simpl; [assumption|].
    destruct (negb (Limiter.allowed _)); simpl; [assumption|].
    destruct (negb (Limiter.rl_allowed _)); simpl; [assumption|].
    destruct (selectProviders r); simpl; [assumption|].
    destruct (strategy (routing r)); simpl;
      first [assumption | now apply sound_tryProviders].
  - unfold routeStream, throw.
    destruct (negb (initialized r)); simpl; [assumption|].
    destruct (selectProviders r); simpl; [assumption|].
    now apply sound_tryStreams.
Qed.

Lemma reachable_routers_are_sound_witness :
  counts_ok (afterBadThenGood incrementalAverage) /\
  (requestCount <$> providerMetrics (metrics (afterBadThenGood incrementalAverage))
                      !! "flaky"%string) = Some (0 + 1 + 1).
Proof.
  split; [|reflexivity].
  apply (reachable_routers_are_sound incrementalAverage).
  unfold afterBadThenGood, flakyRouter, registerAll. simpl fold_left.
  apply reach_route, reach_route, reach_initialize, reach_register, reach_create.
Defined.

End InvariantFacts.

(** ** Ties and race statistics *)

Section SortStability.
Context {A : Type} (compare : A -> A -> Q) (key : A -> Q).
Hypothesis compare_key : forall a b, compare a b == key a - key b.


End SortStability.

Module TieFacts.
Import Router Examples.






(** *** Race statistics *)

Lemma recordRaces_snoc m races x :
  recordRaces m (races ++ [x])
  = updateSpeculativeMetrics (recordRaces m races) (raced x) (race_duration x)
      (race_cost x).
Proof. unfold recordRaces. now rewrite fold_left_app. Qed.

Lemma sum_snoc_eq {A} (f : A -> Q) (l : list A) (x : A) :
  Num.sum f (l ++ [x]) == Num.sum f l + f x.
Proof. unfold Num.sum. rewrite fold_left_app. reflexivity. Qed.

Lemma len_nonneg {A} (l : list A) : 0 <= Num.len l.
Proof.
  unfold Num.len. change 0 with (inject_Z 0). rewrite <- Zle_Qle. lia.
Qed.

Lemma recordRaces_stats m races :
  speculativeExecutionMetrics m = None ->
  let sm := stats (recordRaces m races) in
  let n := Num.len races in
  totalSpeculativeRequests sm == n /\
  fasterThanSequentialCount sm == n /\
  totalAdditionalCost sm == Num.sum (fun x => race_cost x * (raced x - 1)) races /\
  avgCostIncrease sm * n == totalAdditionalCost sm /\
  avgTimeSaved sm * n == Num.sum (fun x => race_duration x / 2) races /\
  avgCandidatesRaced sm * n == Num.sum raced races.
Proof.
  intros Hnone. induction races as [|x races IH] using rev_ind.
  - unfold stats. simpl. rewrite Hnone. simpl. unfold Num.len, Num.sum. simpl.
    repeat split; reflexivity.
  - rewrite recordRaces_snoc. unfold stats at 1, updateSpeculativeMetrics.
    cbn [speculativeExecutionMetrics]. fold (stats (recordRaces m races)).
    cbv zeta in IH. set (sm := stats (recordRaces m races)) in *.
    destruct IH as (H1 & H2 & H3 & H4 & H5 & H6).
    cbv zeta. cbn [totalSpeculativeRequests fasterThanSequentialCount
                   totalAdditionalCost avgCostIncrease avgTimeSaved
                   avgCandidatesRaced].
    rewrite !sum_snoc_eq, LedgerFacts.len_snoc.
    pose proof (len_nonneg races) as Hn.
    set (n := Num.len races) in *.
    assert (Hnz : ~ totalSpeculativeRequests sm + 1 == 0) by (rewrite H1; lra).
    assert (Hstep : forall avg a,
              (avg + (a - avg) / (totalSpeculativeRequests sm + 1)) * (n + 1)
              == avg * n + a).
    { intros avg a. rewrite <- H1. field. exact Hnz. }
    repeat split.
    + rewrite H1. reflexivity.
    + rewrite H2. reflexivity.
    + rewrite H3. reflexivity.
    + rewrite Hstep, H4, H3. reflexivity.
    + rewrite Hstep, H5. apply Qplus_comp; [reflexivity|]. field.
    + rewrite Hstep, H6. reflexivity.
Qed.

(** X22.  After any non-empty sequence of recorded races, starting from
    metrics without race statistics: the race count and the
    faster-than-sequential count both equal the number of races; the total
    additional cost is the sum over the races of the winner's cost times the
    number of other candidates; and the three averages are the running means
    of that additional cost, of half the winner's duration (the assumed time
    saved) and of the number of candidates raced. *)
Theorem race_statistics_are_running_means (m : RouterMetrics) (races : list Race) :
  speculativeExecutionMetrics m = None ->
  races <> [] ->
  exists sm,
    speculativeExecutionMetrics (recordRaces m races) = Some sm /\
    totalSpeculativeRequests sm == Num.len races /\
    fasterThanSequentialCount sm == Num.len races /\
    totalAdditionalCost sm == Num.sum (fun x => race_cost x * (raced x - 1)) races /\
    avgCostIncrease sm * Num.len races == totalAdditionalCost sm /\
    avgTimeSaved sm * Num.len races == Num.sum (fun x => race_duration x / 2) races /\
    avgCandidatesRaced sm * Num.len races == Num.sum raced races.
Proof.
  intros Hnone Hne.
  pose proof (recordRaces_stats m races Hnone) as H. cbv zeta in H.
  destruct (speculativeExecutionMetrics (recordRaces m races)) as [sm|] eqn:E.
  - exists sm. split; [reflexivity|]. unfold stats in H. now rewrite E in H.
  - exfalso. destruct races as [|x races] using rev_ind; [contradiction|].
    rewrite recordRaces_snoc in E. discriminate.
Qed.

Lemma race_statistics_are_running_means_witness :
  let races := [ {| raced := 2; race_duration := 100; race_cost := 1 # 1000 |};
                 {| raced := 3; race_duration := 300; race_cost := 2 # 1000 |} ] in
  exists sm,
    speculativeExecutionMetrics (recordRaces createEmptyMetrics races) = Some sm /\
    avgTimeSaved sm == 100 /\
    totalAdditionalCost sm == 5 # 1000.
Proof.
  intros races.
  destruct (race_statistics_are_running_means createEmptyMetrics races eq_refl)
    as (sm & Hsm & _).
  - discriminate.
  - exists sm. split; [exact Hsm|].
    vm_compute in Hsm. injection Hsm as <-. split; reflexivity.
Defined.

End TieFacts.

(** ** Gate errors and the two cost ledgers *)

Module GateFacts.
Import Router Examples.



Lemma flat_rate_daily_cost (l : Limiter.TokenLimiter) (now : Q) (tk : Tokens) :
  Limiter.snap_dailyCost (Limiter.getBudgetUsage (Limiter.recordUsage l now tk) now)
  = Limiter.snap_dailyCost (Limiter.getBudgetUsage l now) + total tk / 1000000 * 1.
Proof.
  unfold Limiter.getBudgetUsage. cbn [Limiter.snap_dailyCost].
  now rewrite LedgerFacts.recordUsage_daily.
Qed.

(** X24.  The two cost ledgers use different prices.  When a returned
    response was priced by [calculateCost] from the provider's declared
    cost per million tokens, the metrics' total cost grows by that price
    times the tokens, while the limiter's daily cost grows by the tokens at
    a flat one dollar per million, whatever the provider declares. *)
Theorem metrics_and_limiter_price_differently (latencyAverage : Q -> Q -> Q -> Q)
    (r : Router) (now : Q) (request : ChatRequest) (res : RoutingResult)
    (cfg : ProviderConfig) :
  outcome (route latencyAverage r now request) = Returned res ->
  metrics_cover r ->
  cost (response res) = BaseProvider.calculateCost cfg (total (tokens (response res))) ->
  let e := route latencyAverage r now request in
  rm_totalCost (metrics (final e))
  = rm_totalCost (metrics r)
    + total (tokens (response res)) / 1000000 * costPerMillionTokens cfg /\
  Limiter.snap_dailyCost (Limiter.getBudgetUsage (limiter (final e)) (clock e))
  = Limiter.snap_dailyCost (Limiter.getBudgetUsage (limiter r) (clock e))
    + total (tokens (response res)) / 1000000 * 1.
Proof.
  intros Hout Hcov Hcost. cbv zeta.
  destruct (AttemptFacts.route_cases latencyAverage r now request)
    as [(He & _) | [(ids & _ & Hr & _) | (ids & Hsel & Hloop)]].
  - rewrite Hout in He. discriminate.
  - congruence.
  - pose proof (SelectFacts.selectProviders_registered _ _ Hsel) as Hreg.
    pose proof (BillingFacts.tryProviders_billing latencyAverage request now ids ids
                  r now [] [] Hreg) as H.
    cbv zeta in H. rewrite <- Hloop, Hout in H. destruct H as [Hl Ht].
    split.
    + destruct Ht as (_ & Hc & _).
      { eapply Forall_impl; [exact Hreg|]. intros id [p Hp]. exact (Hcov id p Hp). }
      rewrite Hc, Hcost. reflexivity.
    + rewrite Hl. apply flat_rate_daily_cost.
Qed.

Lemma metrics_and_limiter_price_differently_witness :
  let e := route incrementalAverage pricedRouter 1000 testRequest in
  rm_totalCost (metrics (final e)) == 90 # 1000000 /\
  Limiter.snap_dailyCost (Limiter.getBudgetUsage (limiter (final e)) (clock e))
  == 30 # 1000000.
Proof.
  intros e.
  assert (Hcov : metrics_cover pricedRouter).
  { pose proof (InvariantFacts.sound_register _ priced
                  (InvariantFacts.sound_create
                     (testConfig priority_strategy None None None)))
      as (_ & H & _).
    exact H. }
  destruct (metrics_and_limiter_price_differently incrementalAverage pricedRouter
              1000 testRequest _ pricedConfig eq_refl Hcov eq_refl) as [H1 H2].
  fold e in H1, H2. rewrite H1, H2. split; reflexivity.
Defined.

End GateFacts.

(** ** Progress monitor *)

Module MonitorFacts.
Import Monitor.

Lemma get_some_in {V} (m : list (string * V)) k v :
  JsMap.get m k = Some v -> exists k', In (k', v) m.
Proof.
  induction m as [|[k' v'] m IH]; simpl; [discriminate|].
  destruct (String.eqb k' k).
  - intros H. injection H as ->. eauto.
  - intros H. destruct (IH H) as [k0 Hk0]. eauto.
Qed.

Lemma quiet_set (a : list (string * ActiveTracking)) k v :
  Forall (fun e => callback (snd e) = None) a -> callback v = None ->
  Forall (fun e => callback (snd e) = None) (JsMap.set a k v).
Proof.
  intros Ha Hv. induction a as [|[k' v'] a IH]; simpl.
  - repeat constructor. exact Hv.
  - apply Forall_cons in Ha as [Hk Ha].
    destruct (String.eqb k' k); constructor; auto.
Qed.

Lemma quiet_remove (a : list (string * ActiveTracking)) k :
  Forall (fun e => callback (snd e) = None) a ->
  Forall (fun e => callback (snd e) = None) (JsMap.remove a k).
Proof.
  intros Ha. induction a as [|[k' v'] a IH]; simpl; [constructor|].
  apply Forall_cons in Ha as [Hk Ha].
  destruct (String.eqb k' k); [assumption|constructor; auto].
Qed.

Lemma quiet_get m k tracking :
  quiet m -> JsMap.get (activeTracking m) k = Some tracking -> callback tracking = None.
Proof.
  intros Hq Hget. apply get_some_in in Hget as [k' Hin].
  unfold quiet in Hq. rewrite List.Forall_forall in Hq. exact (Hq _ Hin).
Qed.

Lemma quiet_checkProgress m k now : quiet m -> checkProgress m k now = (m, []).
Proof.
  intros Hq. unfold checkProgress.
  destruct (JsMap.get (activeTracking m) k) as [tracking|] eqn:E; [|reflexivity].
  now rewrite (quiet_get _ _ _ Hq E).
Qed.

Lemma quiet_step m o now :
  quiet m -> without_callback o ->
  snd (step m o now) = [] /\ quiet (fst (step m o now)).
Proof.
  intros Hq Ho. destruct o as [id cb|id|id|tk c]; cbn [step].
  - destruct cb; [contradiction|]. split; [reflexivity|].
    unfold quiet, start. simpl. now apply quiet_set.
  - unfold finish.
    destruct (JsMap.get (activeTracking m) id) as [tracking|] eqn:E; [|auto].
    cbv zeta. rewrite (quiet_get _ _ _ Hq E). simpl. split; [reflexivity|].
    unfold quiet. simpl. now apply quiet_remove.
  - rewrite quiet_checkProgress by assumption. auto.
  - unfold updateTokens.
    set (m0 := {| checkpoints := checkpoints m; activeTracking := activeTracking m;
                  totalTokensUsed := totalTokensUsed m + tk;
                  totalCostIncurred := totalCostIncurred m + c |}).
    assert (Hq0 : quiet m0) by exact Hq.
    assert (H : forall ids,
              fold_left
                (fun acc providerId =>
                   let '(m', calls) := checkProgress (fst acc) providerId now in
                   (m', snd acc ++ calls)) ids (m0, []) = (m0, [])).
    { induction ids as [|k ids IH]; [reflexivity|]. simpl.
      rewrite quiet_checkProgress by assumption. exact IH. }
    change (activeTracking m0) with (activeTracking m).
    rewrite H. auto.
Qed.

(** X25.  A monitor used the way the router uses it, with every tracking
    started without a callback, never calls a callback: whatever checkpoints
    are configured and whatever sequence of start, end, progress check and
    token update it goes through, no notification is delivered. *)
Theorem monitor_without_callbacks_is_silent (cps : list CheckpointConfig)
    (ops : list (Op * Q)) :
  Forall (fun o => without_callback (fst o)) ops ->
  snd (run (create cps) ops) = [] /\ quiet (fst (run (create cps) ops)).
Proof.
  intros Hops. unfold run.
  assert (H : forall m, quiet m ->
            let e := fold_left
                       (fun acc o =>
                          let '(m', calls) := step (fst acc) (fst o) (snd o) in
                          (m', snd acc ++ calls)) ops (m, []) in
            snd e = [] /\ quiet (fst e)).
  { induction ops as [|[o now] ops IH]; intros m Hq; simpl; [auto|].
    apply Forall_cons in Hops as [Ho Hops].
    destruct (quiet_step m o now Hq Ho) as [Hs Hq'].
    destruct (step m o now) as [m' calls]. simpl in *. subst calls.
    now apply IH. }
  apply H. constructor.
Qed.

Lemma monitor_without_callbacks_is_silent_witness :
  let cps := [ {| tokenInterval := 0; timeInterval := 0 |} ] in
  let ops := [ (op_start "provider-1" None, 0); (op_tokens 5000 1, 10);
               (op_check "provider-1", 2000); (op_finish "provider-1", 3000) ] in
  snd (run (create cps) ops) = [] /\
  snd (run (create cps) [ (op_start "provider-1" (Some "cb"), 0);
                          (op_finish "provider-1", 3000) ]) <> [].
Proof.
  intros cps ops. split.
  - apply (monitor_without_callbacks_is_silent cps ops).
    repeat constructor.
  - discriminate.
Defined.

(** X26.  Whatever a monitor delivers while a request is tracked is an
    in-progress update whose percentage is a whole number not above 95;
    ending a tracking delivers at most one update, a complete one at 100
    percent for the ended provider; starting a tracking delivers nothing. *)
Theorem monitor_updates_by_operation (m : ProgressMonitor) (o : Op) (now : Q)
    (cb : string) (u : ProgressUpdate) :
  In (cb, u) (snd (step m o now)) ->
  match o with
  | op_start _ _ => False
  | op_finish id =>
      status u = complete /\ percentage u = 100 /\ pu_provider u = id /\
      (List.length (snd (step m o now)) <= 1)%nat
  | op_check _ | op_tokens _ _ =>
      status u = in_progress /\ percentage u <= 95 /\
      exists n : Z, percentage u = inject_Z n
  end.
Proof.
  assert (Hmin : forall x : Z, Monitor.min (inject_Z x) 95 <= 95 /\
                               exists n : Z, Monitor.min (inject_Z x) 95 = inject_Z n).
  { intros x. unfold Monitor.min. destruct (Qle_bool (inject_Z x) 95) eqn:E.
    - apply Qle_bool_iff in E. eauto.
    - split; [lra|]. exists 95%Z. reflexivity. }
  assert (Hcheck : forall m id, In (cb, u) (snd (checkProgress m id now)) ->
            status u = in_progress /\ percentage u <= 95 /\
            exists n : Z, percentage u = inject_Z n).
  { intros m0 id. unfold checkProgress.
    destruct (JsMap.get (activeTracking m0) id) as [tracking|]; [|simpl; tauto].
    destruct (callback tracking); [|simpl; tauto].
    destruct (existsb _ _); [|simpl; tauto].
    simpl. intros [H|[]]. injection H as _ <-. simpl.
    split; [reflexivity|]. apply Hmin. }
  destruct o as [id c|id|id|tk c]; simpl.
  - tauto.
  - unfold finish.
    destruct (JsMap.get (activeTracking m) id) as [tracking|]; [|simpl; tauto].
    destruct (callback tracking); simpl; [|tauto].
    intros [H|[]]. injection H as _ <-. simpl. repeat split. lia.
  - apply Hcheck.
  - unfold updateTokens.
    set (m0 := {| checkpoints := checkpoints m; activeTracking := activeTracking m;
                  totalTokensUsed := totalTokensUsed m + tk;
                  totalCostIncurred := totalCostIncurred m + c |}).
    generalize (JsMap.keys (activeTracking m0)). intros ids.
    assert (H : forall acc,
              In (cb, u)
                (snd (fold_left
                        (fun acc providerId =>
                           let '(m', calls) := checkProgress (fst acc) providerId now in
                           (m', snd acc ++ calls)) ids acc)) ->
              In (cb, u) (snd acc) \/
              (status u = in_progress /\ percentage u <= 95 /\
               exists n : Z, percentage u = inject_Z n)).
    { induction ids as [|k ids IH]; intros acc; simpl; [tauto|].
      intros Hin. apply IH in Hin as [Hin|Hin]; [|tauto].
      destruct (checkProgress (fst acc) k now) as [m' calls] eqn:E. simpl in Hin.
      apply in_app_or in Hin as [Hin|Hin]; [tauto|].
      right. apply (Hcheck (fst acc) k). now rewrite E. }
    intros Hin. apply H in Hin as [[]|Hin]. exact Hin.
Qed.

Lemma monitor_updates_by_operation_witness :
  let m := start (create [ {| tokenInterval := 100; timeInterval := 1000 |} ])
             "provider-1" (Some "cb") 0 in
  exists u,
    snd (step m (op_tokens 5000 1) 10) = [("cb"%string, u)] /\
    percentage u == 95 /\ status u = in_progress.
Proof.
  intros m. eexists. split; [vm_compute; reflexivity|].
  split; [reflexivity|].
  eapply (monitor_updates_by_operation m (op_tokens 5000 1) 10 "cb").
  vm_compute. left. reflexivity.
Defined.

Lemma no_checkpoint_due (cps : list CheckpointConfig) (dt dk : Q) :
  Forall (fun cp => 0 < timeInterval cp /\ 0 < tokenInterval cp) cps ->
  dt == 0 -> dk == 0 ->
  existsb (fun cp => Num.ge dt (timeInterval cp) || Num.ge dk (tokenInterval cp)) cps
  = false.
Proof.
  intros Hpos Ht Hk. induction cps as [|cp cps IH]; [reflexivity|].
  apply Forall_cons in Hpos as [[H1 H2] Hpos]. simpl.
  rewrite IH by assumption.
  assert (E1 : Num.ge dt (timeInterval cp) = false)
    by (apply LedgerFacts.ge_false; lra).
  assert (E2 : Num.ge dk (tokenInterval cp) = false)
    by (apply LedgerFacts.ge_false; lra).
  now rewrite E1, E2.
Qed.

(** X27.  When every checkpoint has a positive time interval and a positive
    token interval, a progress check made right after another one for the
    same provider, at the same time and with no tokens added in between,
    delivers nothing and changes nothing: no update is delivered twice. *)
Theorem no_repeated_notification (m : ProgressMonitor) (id : string) (now : Q) :
  positive_intervals m ->
  checkProgress (fst (checkProgress m id now)) id now
  = (fst (checkProgress m id now), []).
Proof.
  intros Hpos. unfold checkProgress at 2 3.
  destruct (JsMap.get (activeTracking m) id) as [tracking|] eqn:E.
  2: { simpl. unfold checkProgress. now rewrite E. }
  destruct (callback tracking) as [cb|] eqn:Ecb.
  2: { simpl. unfold checkProgress. now rewrite E, Ecb. }
  destruct (existsb _ (checkpoints m)) eqn:En.
  2: { simpl. unfold checkProgress. now rewrite E, Ecb, En. }
  simpl. unfold checkProgress. simpl.
  rewrite JsMapFacts.get_set_eq. simpl.
  rewrite no_checkpoint_due; [reflexivity|exact Hpos|ring|ring].
Qed.

Lemma no_repeated_notification_witness :
  let m := start (create [ {| tokenInterval := 100; timeInterval := 1000 |} ])
             "provider-1" (Some "cb") 0 in
  snd (checkProgress m "provider-1" 1000) <> [] /\
  snd (checkProgress (fst (checkProgress m "provider-1" 1000)) "provider-1" 1000) = [].
Proof.
  intros m. split; [discriminate|].
  rewrite (no_repeated_notification m "provider-1" 1000); [reflexivity|].
  repeat constructor.
Defined.

End MonitorFacts.
